(** * Verification of the auth-client session manager

    A shallow embedding of the three revisions of the authentication
    provider found in the repository:

    - [Simple]: [src/AuthContext.tsx] ([decodeAndSetToken], [logout],
      [handleCallback], the mount effect);
    - [Core]:   [src/useAuthCoreState.ts] ([saveTokenAndUser],
      [clearTokenAndUser], the initial-load effect) together with the
      [useAuthActions] hook ([handleAuthCallback], login initiation) and the
      [logout] of the provider that composes the two hooks;
    - [Mono]:   the monolithic provider that holds [saveTokenAndUser],
      [clearTokenAndUser] and [handleAuthCallback] in one component.

    React state is modelled by explicit state passing: every operation is a
    function on a [World] that holds the committed [AuthState], the refs,
    both Web Storage areas, the query string of the current URL and the log
    of observable effects (calls of the configured callbacks, navigations).
    An operation always runs against the state committed by the previous
    one.  The configured callbacks are taken to return normally and not to
    call back into the provider, and storage writes to succeed.  A decoded
    payload is a JSON object, as the type [JwtPayload] says. *)

From stdpp Require Import gmap strings list.
From Stdlib Require Import Strings.Ascii Strings.Byte.

Open Scope string_scope.
Open Scope list_scope.

#[local] Set Warnings "-register-all".

(** ** JavaScript values *)

(** The values a decoded token payload and a user object can hold.
    [VUndef] is JavaScript's [undefined]; numbers are the integer-valued
    claims ([exp], [iat]). *)
Inductive jsval :=
  | VUndef
  | VNull
  | VBool (b : bool)
  | VNum (n : Z)
  | VStr (s : string)
  | VArr (l : list jsval)
  | VObj (l : list (string * jsval)).

(** JavaScript truthiness, [ToBoolean]. *)
Definition truthy (v : jsval) : bool :=
  match v with
  | VUndef | VNull => false
  | VBool b => b
  | VNum n => negb (Z.eqb n 0)
  | VStr s => negb (String.eqb s "")
  | VArr _ | VObj _ => true
  end.

(** [a || b] *)
Definition js_or (a b : jsval) : jsval := if truthy a then a else b.

(** An object with string keys: its own properties. *)
Abbreviation jsobj := (gmap string jsval).

(** Property read [o.k]: [undefined] when [k] is not a property of [o]. *)
Definition prop (o : jsobj) (k : string) : jsval := default VUndef (o !! k).

(** A [string | null] as the DOM returns it, tested as a condition:
    [null] and the empty string are falsy. *)
Definition truthyStr (s : option string) : bool :=
  match s with
  | Some s => negb (String.eqb s "")
  | None => false
  end.

(** A [string | null] inside a template literal. *)
Definition show (s : option string) : string := default "null" s.

(** ** The session record, [AuthState] *)

Abbreviation AuthUser := jsobj (only parsing).

Record AuthState := mkAuthState {
  isAuthenticated : bool;
  user : option AuthUser;
  isLoading : bool;
  error : option string;
  token : option string
}.

(** Web Storage: [getItem] is lookup, [setItem] insert, [removeItem]
    delete. *)
Abbreviation Storage := (gmap string string).

(** The query string of [window.location], as [URLSearchParams] reads it:
    [params.get k] is lookup. *)
Abbreviation Query := (gmap string string).

(** What the application and the browser observe of a run. *)
Inductive Effect :=
  | LoginSuccess (u : AuthUser) (t : string)   (* onLoginSuccess(user, token) *)
  | LogoutSuccess                              (* onLogoutSuccess() *)
  | Navigate (url : string)                    (* window.location.href = url *)
  | NavigateLogin (provider redirect_uri state : string)
  | PostEmailLogin (email redirect_uri state : string).

Definition isLoginSuccess (e : Effect) : bool :=
  match e with LoginSuccess _ _ => true | _ => false end.

Definition isLogoutSuccess (e : Effect) : bool :=
  match e with LogoutSuccess => true | _ => false end.

(** How often the login-success callback has been invoked. *)
Definition loginCalls (l : list Effect) : nat := length (filter isLoginSuccess l).

Definition logoutCalls (l : list Effect) : nat := length (filter isLogoutSuccess l).

(** [session.user?.k]: the property [k] of the session's user, when there
    is one. *)
Definition userProp (s : AuthState) (k : string) : option jsval :=
  (λ u, prop u k) <$> user s.

(** The session invariant of the data model: user and token are present
    exactly when the session is authenticated. *)
Definition sessionConsistent (s : AuthState) : Prop :=
  if isAuthenticated s
  then is_Some (user s) ∧ is_Some (token s)
  else user s = None ∧ token s = None.

(** The canonical empty session. *)
Definition emptySession : AuthState :=
  mkAuthState false None false None None.

(** The configuration after the defaults have been merged in.
    [onLoginSuccess] and [onLogoutSuccess] tell whether the application
    supplied the callback; a call of a supplied callback is recorded in the
    effect log. *)
Record Config := mkConfig {
  tokenStorageKey : string;
  stateStorageKey : string;
  onLoginSuccess : bool;
  onLogoutSuccess : bool
}.

Definition defaultConfig : Config :=
  mkConfig "mgcmnd_auth_token" "mgcmnd_oauth_app_state" false false.

(** The POST of the email login: [response.ok], a response that is not ok
    with the [message] of its body, or a [fetch] that threw. *)
Inductive EmailResponse :=
  | RespOk
  | RespNotOk (message : option string)
  | FetchThrew (message : string).

(** ** The browser page around a provider

    The committed session, [localStorage] (durable), [sessionStorage]
    (scoped to the browsing session), the query string of the current URL
    and the effects observed so far. *)
Record World := mkWorld {
  authState : AuthState;
  localStorage : Storage;
  sessionStorage : Storage;
  search : Query;
  effects : list Effect
}.

Definition setAuthState (f : AuthState → AuthState) (w : World) : World :=
  mkWorld (f (authState w)) (localStorage w) (sessionStorage w) (search w) (effects w).

Definition setLocalStorage (f : Storage → Storage) (w : World) : World :=
  mkWorld (authState w) (f (localStorage w)) (sessionStorage w) (search w) (effects w).

Definition setSessionStorage (f : Storage → Storage) (w : World) : World :=
  mkWorld (authState w) (localStorage w) (f (sessionStorage w)) (search w) (effects w).

(** The query string becomes [q].  The handlers use it with the empty
    query: [window.history.replaceState({}, document.title,
    window.location.pathname)] keeps the path and drops the query string. *)
Definition setSearch (q : Query) (w : World) : World :=
  mkWorld (authState w) (localStorage w) (sessionStorage w) q (effects w).

Definition emit (e : Effect) (w : World) : World :=
  mkWorld (authState w) (localStorage w) (sessionStorage w) (search w) (effects w ++ [e]).

(** ** [src/AuthContext.tsx]: the provider with [handleCallback] *)

Module Simple.

(** The component calls its session [state]. *)
Abbreviation state := authState (only parsing).
Abbreviation setState := setAuthState (only parsing).

(** [useState] initial value. *)
Definition initialState : AuthState := mkAuthState false None false None None.

(** The CSRF state key is the literal ['oauth_state'] here. *)
Definition oauthStateKey : string := "oauth_state".

Section Provider.

Variable jwtDecode : string → option jsobj.
Variable cfg : Config.

(** The user object literal
    [{ id: decoded.sub || decoded.id, email: decoded.email,
       name: decoded.name, picture: decoded.picture, ...decoded }]:
    the spread comes last, so the payload's own properties win. *)
Definition makeUser (decoded : jsobj) : AuthUser :=
  decoded ∪
  <["picture" := prop decoded "picture"]>
  (<["name" := prop decoded "name"]>
  (<["email" := prop decoded "email"]>
  (<["id" := js_or (prop decoded "sub") (prop decoded "id")]> ∅))).

Definition decodeAndSetToken (tok : string) (skipCallback : bool) (w : World) : World :=
  if bool_decide (token (state w) = Some tok) && isAuthenticated (state w) then w
  else
    match jwtDecode tok with
    | Some decoded =>
        let user := makeUser decoded in
        let w := setLocalStorage (insert (tokenStorageKey cfg) tok) w in
        let w := setState (λ _, mkAuthState true (Some user) false None (Some tok)) w in
        if negb skipCallback && onLoginSuccess cfg
        then emit (LoginSuccess user tok) w
        else w
    | None =>
        setState (λ prev, mkAuthState (isAuthenticated prev) (user prev) false
                            (Some "Invalid token format") (token prev)) w
    end.

(** The mount effect: load the token from [localStorage]. *)
Definition loadTokenOnMount (w : World) : World :=
  let tok := localStorage w !! tokenStorageKey cfg in
  if truthyStr tok then decodeAndSetToken (default "" tok) true w else w.

(** [generateState()] draws [st] from the browser's random source; the
    redirect target is recorded as the navigation. *)
Definition loginWithProvider (provider redirectUri st : string) (w : World) : World :=
  let w := setSessionStorage (insert oauthStateKey st) w in
  emit (NavigateLogin provider redirectUri st) w.

(** [loginWithEmail]: a response that is not ok throws
    [Error('Failed to request email login')]; the [catch] stores the
    message of what was thrown. *)
Definition loginWithEmail (email redirectUri st : string) (resp : EmailResponse)
    (w : World) : World :=
  let w := setState (λ prev, mkAuthState (isAuthenticated prev) (user prev) true
                               None (token prev)) w in
  let w := setSessionStorage (insert oauthStateKey st) w in
  let w := emit (PostEmailLogin email redirectUri st) w in
  match resp with
  | RespOk =>
      setState (λ prev, mkAuthState (isAuthenticated prev) (user prev) false
                          (error prev) (token prev)) w
  | RespNotOk _ =>
      setState (λ prev, mkAuthState (isAuthenticated prev) (user prev) false
                          (Some "Failed to request email login") (token prev)) w
  | FetchThrew m =>
      setState (λ prev, mkAuthState (isAuthenticated prev) (user prev) false
                          (Some m) (token prev)) w
  end.

Definition logout (redirectUrl : option string) (w : World) : World :=
  let w := setLocalStorage (delete (tokenStorageKey cfg)) w in
  let w := setState (λ _, mkAuthState false None false None None) w in
  let w := if onLogoutSuccess cfg then emit LogoutSuccess w else w in
  if truthyStr redirectUrl then emit (Navigate (default "" redirectUrl)) w else w.

(** The comparison [stateParam !== storedState] of [handleCallback],
    negated: strict equality of two [string | null]. *)
Definition stateAccepted (stateParam storedState : option string) : bool :=
  bool_decide (stateParam = storedState).

Definition handleCallback (w : World) : World :=
  let tok := search w !! "token" in
  let stateParam := search w !! "state" in
  let err := search w !! "error" in
  let storedState := sessionStorage w !! oauthStateKey in
  (* Clean up *)
  let w := setSessionStorage (delete oauthStateKey) w in
  let w := setSearch ∅ w in
  if truthyStr err then
    setState (λ prev, mkAuthState (isAuthenticated prev) (user prev) (isLoading prev)
                        err (token prev)) w
  else if negb (stateAccepted stateParam storedState) then
    setState (λ prev, mkAuthState (isAuthenticated prev) (user prev) (isLoading prev)
                        (Some "Invalid state parameter") (token prev)) w
  else if truthyStr tok then
    decodeAndSetToken (default "" tok) false w
  else
    setState (λ prev, mkAuthState (isAuthenticated prev) (user prev) (isLoading prev)
                        (Some "No token received") (token prev)) w.

End Provider.

(** A page load: the component state starts afresh, both storage areas and
    what the application has observed so far stay, the URL is [q]. *)
Definition pageLoad (q : Query) (w : World) : World :=
  mkWorld initialState (localStorage w) (sessionStorage w) q (effects w).

(** One thing that can happen to a page that hosts the provider: a
    (re)load, the mount effect, one of the provider's operations, or the
    router changing the query string. *)
Inductive step (jwtDecode : string → option jsobj) (cfg : Config) : World → World → Prop :=
  | step_pageLoad q w : step jwtDecode cfg w (pageLoad q w)
  | step_setSearch q w : step jwtDecode cfg w (setSearch q w)
  | step_loadTokenOnMount w : step jwtDecode cfg w (loadTokenOnMount jwtDecode cfg w)
  | step_decodeAndSetToken t b w : step jwtDecode cfg w (decodeAndSetToken jwtDecode cfg t b w)
  | step_loginWithProvider p r st w : step jwtDecode cfg w (loginWithProvider p r st w)
  | step_loginWithEmail e r st resp w : step jwtDecode cfg w (loginWithEmail e r st resp w)
  | step_logout r w : step jwtDecode cfg w (logout cfg r w)
  | step_handleCallback w : step jwtDecode cfg w (handleCallback jwtDecode cfg w).

(** The worlds a run can reach from a page whose session is the initial
    one. *)
Definition reachable (jwtDecode : string → option jsobj) (cfg : Config) (w : World) : Prop :=
  ∃ w0, authState w0 = initialState ∧ rtc (step jwtDecode cfg) w0 w.

End Simple.

(** ** The monolithic provider: [saveTokenAndUser], [clearTokenAndUser],
    the initial effect and [handleAuthCallback] in one component *)

Module Mono.

(** [useState] initial value: loading until the initial token check. *)
Definition initialState : AuthState := mkAuthState false None true None None.

(** The message the [catch] of the email request stores: that of
    [Error(errData.message || "Failed to request email token.")] for a
    response that is not ok, that of the thrown error otherwise, with the
    fallback of [e.message || "Email login request failed."]. *)
Definition emailError (r : EmailResponse) : string :=
  match r with
  | RespOk => ""
  | RespNotOk m => if truthyStr m then default "" m else "Failed to request email token."
  | FetchThrew m => if truthyStr (Some m) then m else "Email login request failed."
  end.

(** [const { sub, ...otherClaims } = claims] and the user object literal
    [{ ...otherClaims, id: sub, email: claims.email, name: claims.name,
       picture: claims.picture }]: [id] is written after the spread. *)
Definition makeUser (claims : jsobj) : AuthUser :=
  let sub := prop claims "sub" in
  let otherClaims := delete "sub" claims in
  <["picture" := prop claims "picture"]>
  (<["name" := prop claims "name"]>
  (<["email" := prop claims "email"]>
  (<["id" := sub]> otherClaims))).

(** The test [!stateFromUrl || stateFromUrl !== stored] of
    [handleAuthCallback], negated. *)
Definition stateAccepted (stateFromUrl stored : option string) : bool :=
  truthyStr stateFromUrl && bool_decide (stateFromUrl = stored).

Definition invalidStateMessage (stateFromUrl stored : option string) : string :=
  "Invalid state. URL: " +:+ show stateFromUrl +:+ ", Stored: " +:+ show stored.

Section Provider.

Variable jwtDecode : string → option jsobj.
Variable cfg : Config.

Definition saveTokenAndUser (jwtToken : string) (w : World) : World :=
  let w := setLocalStorage (insert (tokenStorageKey cfg) jwtToken) w in
  match jwtDecode jwtToken with
  | Some decodedClaims =>
      let user := makeUser decodedClaims in
      let w := setAuthState (λ _, mkAuthState true (Some user) false None (Some jwtToken)) w in
      if onLoginSuccess cfg then emit (LoginSuccess user jwtToken) w else w
  | None =>
      setAuthState (λ prev, mkAuthState (isAuthenticated prev) (user prev) false
        (Some "Authentication processing failed: Invalid token.") (token prev)) w
  end.

Definition clearTokenAndUser (w : World) : World :=
  let w := setLocalStorage (delete (tokenStorageKey cfg)) w in
  let w := setAuthState (λ _, mkAuthState false None false None None) w in
  if onLogoutSuccess cfg then emit LogoutSuccess w else w.

(** The initial effect: check for an existing token. *)
Definition initialEffect (w : World) : World :=
  let storedToken := localStorage w !! tokenStorageKey cfg in
  if truthyStr storedToken then saveTokenAndUser (default "" storedToken) w
  else setAuthState (λ prev, mkAuthState (isAuthenticated prev) (user prev) false
                               (error prev) (token prev)) w.

(** [buildAuthRedirectUrl] with the navigation of [loginWithGoogle] and
    [loginWithGitHub]; [rnd] is what [generateSpaState()] would draw. *)
Definition loginWithProvider (provider redirectUri : string) (appState : option string)
    (rnd : string) (w : World) : World :=
  let spaState := if truthyStr appState then default "" appState else rnd in
  let w := setSessionStorage (insert (stateStorageKey cfg) spaState) w in
  emit (NavigateLogin provider redirectUri spaState) w.

Definition loginWithEmailRequest (email redirectUri : string) (appState : option string)
    (rnd : string) (resp : EmailResponse) (w : World) : World :=
  let w := setAuthState (λ prev, mkAuthState (isAuthenticated prev) (user prev) true
                                   None (token prev)) w in
  let spaState := if truthyStr appState then default "" appState else rnd in
  let w := setSessionStorage (insert (stateStorageKey cfg) spaState) w in
  let w := emit (PostEmailLogin email redirectUri spaState) w in
  match resp with
  | RespOk =>
      setAuthState (λ prev, mkAuthState (isAuthenticated prev) (user prev) false
                              (error prev) (token prev)) w
  | _ =>
      setAuthState (λ prev, mkAuthState (isAuthenticated prev) (user prev) false
                              (Some (emailError resp)) (token prev)) w
  end.

Definition handleAuthCallback (w : World) : World :=
  let w := setAuthState (λ prev, mkAuthState (isAuthenticated prev) (user prev) true
                                   None (token prev)) w in
  let tokenFromUrl := search w !! "token" in
  let stateFromUrl := search w !! "state" in
  let errorFromUrl := search w !! "error" in
  let storedSpaStateBeforeRemove := sessionStorage w !! stateStorageKey cfg in
  let w := setSessionStorage (delete (stateStorageKey cfg)) w in
  if truthyStr errorFromUrl then
    setAuthState (λ _, mkAuthState false None false errorFromUrl None) w
  else if negb (stateAccepted stateFromUrl storedSpaStateBeforeRemove) then
    setAuthState (λ _, mkAuthState false None false
      (Some (invalidStateMessage stateFromUrl storedSpaStateBeforeRemove)) None) w
  else if truthyStr tokenFromUrl then
    let w := saveTokenAndUser (default "" tokenFromUrl) w in
    setSearch ∅ w
  else
    setAuthState (λ prev, mkAuthState false None false
      (Some "No token received but state was valid.") (token prev)) w.

Definition logout (logoutRedirectUri : option string) (w : World) : World :=
  let w := clearTokenAndUser w in
  if truthyStr logoutRedirectUri then emit (Navigate (default "" logoutRedirectUri)) w
  else emit (Navigate "/") w.

End Provider.

(** A page load: the component state starts afresh, both storage areas and
    what the application has observed so far stay, the URL is [q]. *)
Definition pageLoad (q : Query) (w : World) : World :=
  mkWorld initialState (localStorage w) (sessionStorage w) q (effects w).

End Mono.

(** ** [src/useAuthCoreState.ts] and the [useAuthActions] hook *)

Module Core.

(** The page together with the refs of [useAuthCoreState]. *)
Record State := mkState {
  page : World;
  lastProcessedTokenRef : option string;
  isProcessingAuthCallbackRef : bool
}.

Definition onPage (f : World → World) (s : State) : State :=
  mkState (f (page s)) (lastProcessedTokenRef s) (isProcessingAuthCallbackRef s).

Definition setLastProcessedToken (t : option string) (s : State) : State :=
  mkState (page s) t (isProcessingAuthCallbackRef s).

Definition setIsProcessingAuthCallback (b : bool) (s : State) : State :=
  mkState (page s) (lastProcessedTokenRef s) b.

(** [useState] initial value: loading until the initial token check. *)
Definition initialState : AuthState := mkAuthState false None true None None.

(** [const { sub, ...otherClaims } = claims] and the user object literal
    [{ ...otherClaims, id: sub, email: otherClaims.email,
       name: otherClaims.name, picture: otherClaims.picture }]. *)
Definition makeUser (claims : jsobj) : AuthUser :=
  let sub := prop claims "sub" in
  let otherClaims := delete "sub" claims in
  <["picture" := prop otherClaims "picture"]>
  (<["name" := prop otherClaims "name"]>
  (<["email" := prop otherClaims "email"]>
  (<["id" := sub]> otherClaims))).

Section Hooks.

Variable jwtDecode : string → option jsobj.
Variable cfg : Config.

Definition saveTokenAndUser (jwtToken : string) (fromAuthCallback : bool) (s : State) : State :=
  (* Prevent duplicate processing of the same token *)
  if bool_decide (lastProcessedTokenRef s = Some jwtToken) then s
  else
    let s := if fromAuthCallback then setIsProcessingAuthCallback true s else s in
    let s := onPage (setLocalStorage (insert (tokenStorageKey cfg) jwtToken)) s in
    match jwtDecode jwtToken with
    | Some claims =>
        let user := makeUser claims in
        let s := onPage (setAuthState
                   (λ _, mkAuthState true (Some user) false None (Some jwtToken))) s in
        let s := setLastProcessedToken (Some jwtToken) s in
        let s := if onLoginSuccess cfg then onPage (emit (LoginSuccess user jwtToken)) s else s in
        if fromAuthCallback then setIsProcessingAuthCallback false s else s
    | None =>
        let s := onPage (setAuthState
                   (λ prev, mkAuthState (isAuthenticated prev) (user prev) false
                      (Some "Authentication processing failed. Invalid token format.")
                      (token prev))) s in
        if fromAuthCallback then setIsProcessingAuthCallback false s else s
    end.

Definition clearTokenAndUser (s : State) : State :=
  let s := onPage (setLocalStorage (delete (tokenStorageKey cfg))) s in
  let s := setLastProcessedToken None s in
  let s := setIsProcessingAuthCallback false s in
  let s := onPage (setAuthState (λ _, mkAuthState false None false None None)) s in
  if onLogoutSuccess cfg then onPage (emit LogoutSuccess) s else s.

(** The effect for initial token loading from [localStorage]. *)
Definition initialEffect (s : State) : State :=
  if isProcessingAuthCallbackRef s then s
  else
    let storedToken := localStorage (page s) !! tokenStorageKey cfg in
    if truthyStr storedToken then saveTokenAndUser (default "" storedToken) false s
    else onPage (setAuthState (λ prev, mkAuthState (isAuthenticated prev) (user prev) false
                                         (error prev) (token prev))) s.

(** [useAuthActions]: [buildAuthRedirectUrl] with the navigation of
    [loginWithGoogle] and [loginWithGitHub]. *)
Definition loginWithProvider (provider redirectUri : string) (appState : option string)
    (rnd : string) (s : State) : State :=
  let spaState := if truthyStr appState then default "" appState else rnd in
  let s := onPage (setSessionStorage (insert (stateStorageKey cfg) spaState)) s in
  onPage (emit (NavigateLogin provider redirectUri spaState)) s.

Definition loginWithEmailRequest (email redirectUri : string) (appState : option string)
    (rnd : string) (resp : EmailResponse) (s : State) : State :=
  let s := onPage (setAuthState (λ prev, mkAuthState (isAuthenticated prev) (user prev) true
                                           None (token prev))) s in
  let spaState := if truthyStr appState then default "" appState else rnd in
  let s := onPage (setSessionStorage (insert (stateStorageKey cfg) spaState)) s in
  let s := onPage (emit (PostEmailLogin email redirectUri spaState)) s in
  match resp with
  | RespOk =>
      onPage (setAuthState (λ prev, mkAuthState (isAuthenticated prev) (user prev) false
                                      (error prev) (token prev))) s
  | _ =>
      onPage (setAuthState (λ prev, mkAuthState (isAuthenticated prev) (user prev) false
                                      (Some (Mono.emailError resp)) (token prev))) s
  end.

Definition handleAuthCallback (s : State) : State :=
  let s := onPage (setAuthState (λ prev, mkAuthState (isAuthenticated prev) (user prev) true
                                           None (token prev))) s in
  let tokenFromUrl := search (page s) !! "token" in
  let stateFromUrl := search (page s) !! "state" in
  let errorFromUrl := search (page s) !! "error" in
  let storedSpaStateBeforeRemove := sessionStorage (page s) !! stateStorageKey cfg in
  let s := onPage (setSessionStorage (delete (stateStorageKey cfg))) s in
  if truthyStr errorFromUrl then
    onPage (setAuthState (λ _, mkAuthState false None false errorFromUrl None)) s
  else if negb (Mono.stateAccepted stateFromUrl storedSpaStateBeforeRemove) then
    onPage (setAuthState (λ _, mkAuthState false None false
      (Some (Mono.invalidStateMessage stateFromUrl storedSpaStateBeforeRemove)) None)) s
  else if truthyStr tokenFromUrl then
    let s := saveTokenAndUser (default "" tokenFromUrl) true s in
    onPage (setSearch ∅) s
  else
    onPage (setAuthState (λ prev, mkAuthState false None false
      (Some "Authentication completed without a token, but state was valid.")
      (token prev))) s.

(** [logout] of the provider that composes the two hooks; [origin] is
    [window.location.origin]. *)
Definition logout (origin : string) (logoutRedirectUri : option string) (s : State) : State :=
  let s := clearTokenAndUser s in
  let targetRedirect :=
    if truthyStr logoutRedirectUri then default "" logoutRedirectUri else origin +:+ "/" in
  onPage (emit (Navigate targetRedirect)) s.

End Hooks.

(** A page load: state and refs start afresh, both storage areas and what
    the application has observed so far stay, the URL is [q]. *)
Definition pageLoad (q : Query) (s : State) : State :=
  mkState (mkWorld initialState (localStorage (page s)) (sessionStorage (page s)) q
             (effects (page s)))
          None false.

(** A state in which the component has just been mounted. *)
Definition mounted (s : State) : Prop :=
  authState (page s) = initialState ∧ lastProcessedTokenRef s = None ∧
  isProcessingAuthCallbackRef s = false.

(** One thing that can happen to a page that hosts the two hooks. *)
Inductive step (jwtDecode : string → option jsobj) (cfg : Config) : State → State → Prop :=
  | step_pageLoad q s : step jwtDecode cfg s (pageLoad q s)
  | step_setSearch q s : step jwtDecode cfg s (onPage (setSearch q) s)
  | step_initialEffect s : step jwtDecode cfg s (initialEffect jwtDecode cfg s)
  | step_saveTokenAndUser t b s : step jwtDecode cfg s (saveTokenAndUser jwtDecode cfg t b s)
  | step_clearTokenAndUser s : step jwtDecode cfg s (clearTokenAndUser cfg s)
  | step_loginWithProvider p r a rnd s :
      step jwtDecode cfg s (loginWithProvider cfg p r a rnd s)
  | step_loginWithEmailRequest e r a rnd resp s :
      step jwtDecode cfg s (loginWithEmailRequest cfg e r a rnd resp s)
  | step_handleAuthCallback s : step jwtDecode cfg s (handleAuthCallback jwtDecode cfg s)
  | step_logout o r s : step jwtDecode cfg s (logout cfg o r s).

Definition reachable (jwtDecode : string → option jsobj) (cfg : Config) (s : State) : Prop :=
  ∃ s0, mounted s0 ∧ rtc (step jwtDecode cfg) s0 s.

End Core.

(** ** Sample tokens

    [jwtDecode] belongs to the [jwt-decode] package, so the providers take
    it as a parameter: [None] stands for the [InvalidTokenError] it throws.
    [sampleDecode] is its restriction to three tokens, each given with the
    payload its middle segment encodes; every other string is rejected. *)

(** payload [{"sub":"u1","email":"a@b.com"}] *)
Definition validJWT : string :=
  "eyJhbGciOiJIUzI1NiIsInR5cCI6IkpXVCJ9.eyJzdWIiOiJ1MSIsImVtYWlsIjoiYUBiLmNvbSJ9.sig".

(** payload [{"email":"a@b.com"}]: no subject claim *)
Definition noSubJWT : string :=
  "eyJhbGciOiJIUzI1NiIsInR5cCI6IkpXVCJ9.eyJlbWFpbCI6ImFAYi5jb20ifQ.sig".

(** payload [{"sub":"u1","id":"other"}]: a subject and an [id] claim *)
Definition withIdJWT : string :=
  "eyJhbGciOiJIUzI1NiIsInR5cCI6IkpXVCJ9.eyJzdWIiOiJ1MSIsImlkIjoib3RoZXIifQ.sig".

Definition sampleDecode (t : string) : option jsobj :=
  if String.eqb t validJWT then
    Some (<["sub" := VStr "u1"]> (<["email" := VStr "a@b.com"]> ∅))
  else if String.eqb t noSubJWT then
    Some (<["email" := VStr "a@b.com"]> ∅)
  else if String.eqb t withIdJWT then
    Some (<["sub" := VStr "u1"]> (<["id" := VStr "other"]> ∅))
  else None.

(** A configuration with both callbacks supplied. *)
Definition sampleConfig : Config :=
  mkConfig "mgcmnd_auth_token" "mgcmnd_oauth_app_state" true true.

(** A freshly opened page with empty storage. *)
Definition freshWorld (st : AuthState) (q : Query) : World :=
  mkWorld st ∅ ∅ q [].

Definition freshState (q : Query) : Core.State :=
  Core.mkState (freshWorld Core.initialState q) None false.

(** The page of a user whose token [validJWT] was restored on mount and
    whose pending login stored the state ["X"], at the callback URL
    [?error=access_denied&state=X]. *)
Definition deniedWhileSignedIn : World :=
  Simple.loadTokenOnMount sampleDecode sampleConfig
    (mkWorld Simple.initialState
       (<[tokenStorageKey sampleConfig := validJWT]> ∅)
       (<[Simple.oauthStateKey := "X"]> ∅)
       (<["error" := "access_denied"]> (<["state" := "X"]> ∅))
       []).

(** A run of the two hooks: sign in with [validJWT]; start a login with
    Google, which stores the state ["X"]; come back on the callback URL
    [?state=X]; the initial effect restores the session; the callback
    handler runs. *)
Definition tokenlessCallbackRun : Core.State :=
  let s := freshState ∅ in
  let s := Core.saveTokenAndUser sampleDecode sampleConfig validJWT true s in
  let s := Core.loginWithProvider sampleConfig "google"
             "https://app.example/auth/callback" None "X" s in
  let s := Core.pageLoad (<["state" := "X"]> ∅) s in
  let s := Core.initialEffect sampleDecode sampleConfig s in
  Core.handleAuthCallback sampleDecode sampleConfig s.

(** ** The CSRF state generator *)

(** One digit of [Number.prototype.toString(16)]. *)
Definition hexDigit (n : N) : Ascii.ascii :=
  match n with
  | 0 => "0" | 1 => "1" | 2 => "2" | 3 => "3" | 4 => "4" | 5 => "5" | 6 => "6"
  | 7 => "7" | 8 => "8" | 9 => "9" | 10 => "a" | 11 => "b" | 12 => "c"
  | 13 => "d" | 14 => "e" | _ => "f"
  end%N%char.

(** [byte.toString(16)] for an element of a [Uint8Array]: one digit below
    16, two digits from 16 on. *)
Definition toString16 (b : byte) : string :=
  let n := Byte.to_N b in
  if (n <? 16)%N then String (hexDigit n) EmptyString
  else String (hexDigit (n / 16)) (String (hexDigit (n mod 16)) EmptyString).

Fixpoint repeatChar (n : nat) (c : Ascii.ascii) : string :=
  match n with
  | O => EmptyString
  | S n => String c (repeatChar n c)
  end.

(** [s.padStart(targetLength, pad)] for a pad of one character. *)
Definition padStart (targetLength : nat) (pad : Ascii.ascii) (s : string) : string :=
  repeatChar (targetLength - String.length s) pad +:+ s.

(** [generateState] and [generateSpaState]:
    [Array.from(array, byte => byte.toString(16).padStart(2, '0')).join('')]
    where [array] is the [Uint8Array] that [crypto.getRandomValues] filled. *)
Definition generateState (array : list byte) : string :=
  String.concat "" (map (λ b, padStart 2 "0" (toString16 b)) array).

(** The characters [0-9a-f]. *)
Definition isHexDigit (c : Ascii.ascii) : bool :=
  let n := Ascii.N_of_ascii c in
  ((48 <=? n) && (n <=? 57) || (97 <=? n) && (n <=? 102))%N.

Fixpoint allHexDigits (s : string) : bool :=
  match s with
  | EmptyString => true
  | String c s => isHexDigit c && allHexDigits s
  end.

(** The value of a hexadecimal digit, and the byte that two digits spell:
    the inverse of the encoding of one byte. *)
Definition hexValue (c : Ascii.ascii) : N :=
  let n := Ascii.N_of_ascii c in
  (if n <=? 57 then n - 48 else n - 87)%N.

Definition parseHexByte (s : string) : option byte :=
  match s with
  | String c1 (String c2 EmptyString) => Byte.of_N (16 * hexValue c1 + hexValue c2)
  | _ => None
  end.

(** ** [src/AuthCallbackHandler.tsx]: the component that runs the callback *)

Module Handler.

(** What the component tells the application: [onSuccess()] or
    [onError(errorMsg)]. *)
Inductive Notice :=
  | Success
  | Failure (errorMsg : string).

(** The props: whether [onSuccess] and [onError] were passed. *)
Record Props := mkProps {
  onSuccess : bool;
  onError : bool
}.

(** The provider the component reads through [useAuth], its own
    [callbackProcessedRef], and the notices it has given. *)
Record State := mkState {
  provider : Core.State;
  callbackProcessedRef : bool;
  notices : list Notice
}.

(** [params.has(k)] *)
Definition has (params : Query) (k : string) : bool := bool_decide (is_Some (params !! k)).

Section Component.

Variable jwtDecode : string → option jsobj.
Variable cfg : Config.
Variable props : Props.

(** The first effect: process the callback, once. *)
Definition processEffect (s : State) : State :=
  let params := search (Core.page (provider s)) in
  let auth := authState (Core.page (provider s)) in
  if (has params "token" || has params "state" || has params "error")
     && negb (callbackProcessedRef s)
  then
    mkState (Core.handleAuthCallback jwtDecode cfg (provider s)) true (notices s)
  else if negb (has params "token") && negb (has params "state")
          && negb (has params "error") && negb (isLoading auth)
          && negb (isAuthenticated auth) && onError props
  then
    mkState (provider s) (callbackProcessedRef s)
      (notices s ++ [Failure "No authentication parameters found in URL."])
  else s.

(** The second effect: report the outcome once processing is over. *)
Definition notifyEffect (s : State) : State :=
  let auth := authState (Core.page (provider s)) in
  if negb (isLoading auth) && callbackProcessedRef s then
    if isAuthenticated auth && onSuccess props then
      mkState (provider s) (callbackProcessedRef s) (notices s ++ [Success])
    else if truthyStr (error auth) && onError props then
      mkState (provider s) (callbackProcessedRef s)
        (notices s ++ [Failure (default "" (error auth))])
    else s
  else s.

(** A run of one of the two effects. *)
Inductive EffectRun := RunProcess | RunNotify.

Definition runEffect (e : EffectRun) (s : State) : State :=
  match e with
  | RunProcess => processEffect s
  | RunNotify => notifyEffect s
  end.

(** The effects run in some order, as often as the renderer decides. *)
Definition runEffects (schedule : list EffectRun) (s : State) : State :=
  foldl (λ s e, runEffect e s) s schedule.

End Component.

(** The component as it mounts on a page. *)
Definition mount (p : Core.State) : State := mkState p false [].

End Handler.

(** The component of the revision around [handleCallback]: one effect
    calls [handleCallback] on mount, the other reports the outcome. *)
Module SimpleHandler.

Section Component.

Variable jwtDecode : string → option jsobj.
Variable cfg : Config.
Variable props : Handler.Props.

Definition mountEffect (w : World) : World := Simple.handleCallback jwtDecode cfg w.

(** The notice the second effect gives for the session [auth], if any. *)
Definition notifyEffect (auth : AuthState) : option Handler.Notice :=
  if negb (isLoading auth) then
    if isAuthenticated auth && Handler.onSuccess props then Some Handler.Success
    else if truthyStr (error auth) && Handler.onError props
    then Some (Handler.Failure (default "" (error auth)))
    else None
  else None.

End Component.

End SimpleHandler.

(** * Properties *)

(** ** Proof automation *)

Ltac unfold_page :=
  unfold setAuthState, setLocalStorage, setSessionStorage, setSearch, emit in *;
  simpl in *.

Ltac unfold_simple :=
  unfold Simple.handleCallback, Simple.loadTokenOnMount, Simple.decodeAndSetToken,
    Simple.logout, Simple.loginWithProvider, Simple.loginWithEmail, Simple.pageLoad in *;
  unfold_page.

Ltac unfold_mono :=
  unfold Mono.handleAuthCallback, Mono.initialEffect, Mono.saveTokenAndUser,
    Mono.clearTokenAndUser, Mono.logout, Mono.loginWithProvider,
    Mono.loginWithEmailRequest, Mono.pageLoad in *;
  unfold_page.

Ltac unfold_core :=
  unfold Core.handleAuthCallback, Core.initialEffect, Core.saveTokenAndUser,
    Core.clearTokenAndUser, Core.logout, Core.loginWithProvider,
    Core.loginWithEmailRequest, Core.pageLoad, Core.onPage,
    Core.setLastProcessedToken, Core.setIsProcessingAuthCallback in *;
  unfold_page.

(** Split on every condition the operations test. *)
Ltac split_conditions := repeat (case_match; simpl in *; try done).

(** ** Basic facts about the conditions *)

Lemma truthyStr_Some (o : option string) :
  truthyStr o = true → ∃ s, o = Some s ∧ s ≠ "".
Proof.
  destruct o as [s|]; simpl; [|discriminate].
  intros H. exists s. split; [reflexivity|].
  intros ->. discriminate.
Qed.

Lemma truthyStr_nonempty (s : string) : s ≠ "" → truthyStr (Some s) = true.
Proof. destruct s; [congruence | reflexivity]. Qed.

Lemma Simple_stateAccepted_spec (a b : option string) :
  Simple.stateAccepted a b = true ↔ a = b.
Proof. unfold Simple.stateAccepted. apply bool_decide_eq_true. Qed.

(** The guarded test of [handleAuthCallback] accepts exactly a non-empty
    state parameter that equals the stored value. *)
Lemma Mono_stateAccepted_spec (a b : option string) :
  Mono.stateAccepted a b = true ↔ ∃ s, s ≠ "" ∧ a = Some s ∧ b = Some s.
Proof.
  unfold Mono.stateAccepted. rewrite andb_true_iff, bool_decide_eq_true. split.
  - intros [Ht <-]. apply truthyStr_Some in Ht as (s & -> & Hs). eauto.
  - intros (s & Hs & -> & ->). split; [by apply truthyStr_nonempty | done].
Qed.

Lemma Mono_stateAccepted_absent (a b : option string) :
  a = None ∨ b = None → Mono.stateAccepted a b = false.
Proof.
  intros H. apply not_true_is_false. rewrite Mono_stateAccepted_spec.
  intros (s & _ & -> & ->). destruct H; discriminate.
Qed.

(** The two user constructions that take [id] from [sub] agree. *)
Lemma Mono_makeUser_Core (claims : jsobj) : Mono.makeUser claims = Core.makeUser claims.
Proof.
  unfold Mono.makeUser, Core.makeUser, prop.
  by rewrite !lookup_delete_ne.
Qed.

Lemma Core_makeUser_id (claims : jsobj) :
  prop (Core.makeUser claims) "id" = prop claims "sub".
Proof.
  unfold Core.makeUser, prop.
  rewrite !lookup_insert_ne by done. by rewrite lookup_insert_eq.
Qed.

Lemma Simple_makeUser_id (decoded : jsobj) :
  decoded !! "id" = None →
  prop (Simple.makeUser decoded) "id" = js_or (prop decoded "sub") VUndef.
Proof.
  intros Hid. unfold Simple.makeUser. unfold prop at 1.
  rewrite lookup_union_r by done.
  rewrite !lookup_insert_ne by done. rewrite lookup_insert_eq. simpl.
  unfold prop at 2. by rewrite Hid.
Qed.

(** When the payload has an [id] of its own, the spread puts it over the
    subject. *)
Lemma Simple_makeUser_id_own (decoded : jsobj) (v : jsval) :
  decoded !! "id" = Some v → prop (Simple.makeUser decoded) "id" = v.
Proof.
  intros Hid. unfold Simple.makeUser, prop.
  by rewrite (lookup_union_Some_l _ _ _ _ Hid).
Qed.

(** ** Frame facts: what materializing a token leaves alone *)

Lemma Simple_decodeAndSetToken_sessionStorage jwtDecode cfg t b (w : World) :
  sessionStorage (Simple.decodeAndSetToken jwtDecode cfg t b w) = sessionStorage w.
Proof. unfold_simple. by split_conditions. Qed.

Lemma Simple_handleCallback_consumes jwtDecode cfg (w : World) :
  sessionStorage (Simple.handleCallback jwtDecode cfg w) !! Simple.oauthStateKey = None.
Proof.
  unfold Simple.handleCallback.
  repeat case_match; rewrite ?Simple_decodeAndSetToken_sessionStorage;
    unfold_page; apply lookup_delete_eq.
Qed.

Lemma Core_saveTokenAndUser_sessionStorage jwtDecode cfg t b (s : Core.State) :
  sessionStorage (Core.page (Core.saveTokenAndUser jwtDecode cfg t b s)) =
  sessionStorage (Core.page s).
Proof. unfold_core. by split_conditions. Qed.

Lemma Core_handleAuthCallback_consumes jwtDecode cfg (s : Core.State) :
  sessionStorage (Core.page (Core.handleAuthCallback jwtDecode cfg s)) !! stateStorageKey cfg
  = None.
Proof.
  unfold Core.handleAuthCallback.
  repeat case_match; unfold Core.onPage at 1; simpl;
    rewrite ?Core_saveTokenAndUser_sessionStorage; unfold_core; apply lookup_delete_eq.
Qed.

Lemma Mono_handleAuthCallback_consumes jwtDecode cfg (w : World) :
  sessionStorage (Mono.handleAuthCallback jwtDecode cfg w) !! stateStorageKey cfg = None.
Proof. unfold_mono. split_conditions; apply lookup_delete_eq. Qed.

(** ** The callback without a state parameter *)

(** C1, [handleCallback] of [src/AuthContext.tsx]: the callback URL
    [?token=validJWT] carries no [state] parameter and no CSRF state is
    stored, yet the comparison [stateParam !== storedState] lets it through
    ([null] equals [null]) and the session is established: authenticated,
    token stored, login callback invoked. *)
Theorem handleCallback_accepts_absent_state :
  let w := freshWorld Simple.initialState (<["token" := validJWT]> ∅) in
  let w' := Simple.handleCallback sampleDecode sampleConfig w in
  search w !! "state" = None ∧
  sessionStorage w !! Simple.oauthStateKey = None ∧
  Simple.stateAccepted (search w !! "state") (sessionStorage w !! Simple.oauthStateKey) = true ∧
  isAuthenticated (authState w') = true ∧
  token (authState w') = Some validJWT ∧
  error (authState w') = None ∧
  localStorage w' !! tokenStorageKey sampleConfig = Some validJWT ∧
  loginCalls (effects w') = 1.
Proof. vm_compute. by repeat split. Qed.

(** The same for every decoder and every page: when neither a state
    parameter nor a stored state exists and the URL brings a token that
    decodes, [handleCallback] authenticates. *)
Lemma Simple_handleCallback_absent_state jwtDecode cfg (w : World) tok claims :
  search w !! "state" = None →
  sessionStorage w !! Simple.oauthStateKey = None →
  truthyStr (search w !! "error") = false →
  search w !! "token" = Some tok → tok ≠ "" →
  jwtDecode tok = Some claims →
  let w' := Simple.handleCallback jwtDecode cfg w in
  isAuthenticated (authState w') = true ∧ token (authState w') = Some tok.
Proof.
  intros Hst Hss Herr Htok Hne Hdec.
  unfold Simple.handleCallback. cbv zeta.
  rewrite Hst, Hss, Herr, Htok, (truthyStr_nonempty _ Hne). simpl.
  unfold_simple. rewrite Hdec.
  destruct (bool_decide (token (authState w) = Some tok)) eqn:Hb;
    destruct (isAuthenticated (authState w)) eqn:Ha; simpl;
    try apply bool_decide_eq_true in Hb; rewrite ?Ha; by split_conditions.
Qed.

(** [handleAuthCallback] of the [useAuthActions] hook rejects whenever the
    state parameter or the stored state is missing, and establishes
    nothing. *)
Lemma Core_handleAuthCallback_absent_state jwtDecode cfg (s : Core.State) :
  search (Core.page s) !! "state" = None ∨
  sessionStorage (Core.page s) !! stateStorageKey cfg = None →
  let s' := Core.handleAuthCallback jwtDecode cfg s in
  isAuthenticated (authState (Core.page s')) = false ∧
  user (authState (Core.page s')) = None ∧
  token (authState (Core.page s')) = None ∧
  is_Some (error (authState (Core.page s'))) ∧
  localStorage (Core.page s') = localStorage (Core.page s) ∧
  effects (Core.page s') = effects (Core.page s).
Proof.
  intros H. unfold Core.handleAuthCallback. simpl.
  rewrite (Mono_stateAccepted_absent _ _ H). simpl.
  destruct (truthyStr (search (Core.page s) !! "error")) eqn:He; simpl.
  - apply truthyStr_Some in He as (e & -> & _). by eauto 10.
  - by eauto 10.
Qed.

(** The monolithic provider's [handleAuthCallback] does the same. *)
Lemma Mono_handleAuthCallback_absent_state jwtDecode cfg (w : World) :
  search w !! "state" = None ∨ sessionStorage w !! stateStorageKey cfg = None →
  let w' := Mono.handleAuthCallback jwtDecode cfg w in
  isAuthenticated (authState w') = false ∧
  user (authState w') = None ∧
  token (authState w') = None ∧
  is_Some (error (authState w')) ∧
  localStorage w' = localStorage w ∧
  effects w' = effects w.
Proof.
  intros H. unfold Mono.handleAuthCallback. simpl.
  rewrite (Mono_stateAccepted_absent _ _ H). simpl.
  destruct (truthyStr (search w !! "error")) eqn:He; simpl.
  - apply truthyStr_Some in He as (e & -> & _). by eauto 10.
  - by eauto 10.
Qed.

(** ** The stored CSRF state is single-use *)

(** A callback whose state is not accepted materializes nothing in
    [handleCallback]: it records an error and leaves session, token storage
    and callbacks alone. *)
Lemma Simple_handleCallback_rejects jwtDecode cfg (w : World) :
  Simple.stateAccepted (search w !! "state") (sessionStorage w !! Simple.oauthStateKey) = false →
  let w' := Simple.handleCallback jwtDecode cfg w in
  is_Some (error (authState w')) ∧
  isAuthenticated (authState w') = isAuthenticated (authState w) ∧
  user (authState w') = user (authState w) ∧
  token (authState w') = token (authState w) ∧
  localStorage w' = localStorage w ∧
  effects w' = effects w.
Proof.
  intros H. unfold Simple.handleCallback. cbv zeta. rewrite H. simpl.
  destruct (truthyStr (search w !! "error")) eqn:He; simpl.
  - apply truthyStr_Some in He as (e & -> & _). by eauto 10.
  - by eauto 10.
Qed.

Lemma Core_handleAuthCallback_rejects jwtDecode cfg (s : Core.State) :
  Mono.stateAccepted (search (Core.page s) !! "state")
    (sessionStorage (Core.page s) !! stateStorageKey cfg) = false →
  let s' := Core.handleAuthCallback jwtDecode cfg s in
  is_Some (error (authState (Core.page s'))) ∧
  isAuthenticated (authState (Core.page s')) = false ∧
  user (authState (Core.page s')) = None ∧
  token (authState (Core.page s')) = None ∧
  localStorage (Core.page s') = localStorage (Core.page s) ∧
  effects (Core.page s') = effects (Core.page s) ∧
  Core.lastProcessedTokenRef s' = Core.lastProcessedTokenRef s.
Proof.
  intros H. unfold Core.handleAuthCallback. cbv zeta. simpl. rewrite H. simpl.
  destruct (truthyStr (search (Core.page s) !! "error")) eqn:He; simpl.
  - apply truthyStr_Some in He as (e & -> & _). by eauto 10.
  - by eauto 10.
Qed.

(** C2: the first run of the callback handler removes the stored CSRF
    state whatever the comparison gave, so a second run whose URL carries
    the state [S] is not accepted: the comparison fails, an error is
    recorded, and nothing is materialized (token storage and callbacks are
    untouched, [handleAuthCallback] leaves the session unauthenticated,
    [handleCallback] leaves it as the first run left it). *)
Theorem csrf_state_single_use
    (jwtDecode : string → option jsobj) (cfg : Config) (q : Query) (S : string)
    (Hq : q !! "state" = Some S) :
  (∀ w : World,
     let w1 := Simple.handleCallback jwtDecode cfg w in
     let w2 := Simple.handleCallback jwtDecode cfg (setSearch q w1) in
     sessionStorage w1 !! Simple.oauthStateKey = None ∧
     Simple.stateAccepted (Some S) (sessionStorage w1 !! Simple.oauthStateKey) = false ∧
     is_Some (error (authState w2)) ∧
     isAuthenticated (authState w2) = isAuthenticated (authState w1) ∧
     user (authState w2) = user (authState w1) ∧
     token (authState w2) = token (authState w1) ∧
     localStorage w2 = localStorage w1 ∧
     effects w2 = effects w1) ∧
  (∀ s : Core.State,
     let s1 := Core.handleAuthCallback jwtDecode cfg s in
     let s2 := Core.handleAuthCallback jwtDecode cfg (Core.onPage (setSearch q) s1) in
     sessionStorage (Core.page s1) !! stateStorageKey cfg = None ∧
     Mono.stateAccepted (Some S) (sessionStorage (Core.page s1) !! stateStorageKey cfg) = false ∧
     is_Some (error (authState (Core.page s2))) ∧
     isAuthenticated (authState (Core.page s2)) = false ∧
     user (authState (Core.page s2)) = None ∧
     token (authState (Core.page s2)) = None ∧
     localStorage (Core.page s2) = localStorage (Core.page s1) ∧
     effects (Core.page s2) = effects (Core.page s1)).
Proof.
  split.
  - intros w w1 w2.
    pose proof (Simple_handleCallback_consumes jwtDecode cfg w) as Hgone.
    fold w1 in Hgone.
    assert (Hrej : Simple.stateAccepted (Some S)
                     (sessionStorage w1 !! Simple.oauthStateKey) = false).
    { rewrite Hgone. by apply bool_decide_eq_false. }
    split; [done|]. split; [done|].
    apply (Simple_handleCallback_rejects jwtDecode cfg (setSearch q w1)).
    simpl. by rewrite Hq.
  - intros s s1 s2.
    pose proof (Core_handleAuthCallback_consumes jwtDecode cfg s) as Hgone.
    fold s1 in Hgone.
    assert (Hrej : Mono.stateAccepted (Some S)
                     (sessionStorage (Core.page s1) !! stateStorageKey cfg) = false).
    { apply Mono_stateAccepted_absent. by right. }
    split; [done|]. split; [done|].
    destruct (Core_handleAuthCallback_rejects jwtDecode cfg (Core.onPage (setSearch q) s1))
      as (He & Ha & Hu & Ht & Hl & Hf & _).
    { simpl. by rewrite Hq. }
    done.
Qed.

(** The stored state ["X"] and the URL [?token=validJWT&state=X]: the first
    run authenticates, the replayed URL is refused. *)
Lemma csrf_state_single_use_witness :
  let q : Query := <["token" := validJWT]> (<["state" := "X"]> ∅) in
  let w := mkWorld Simple.initialState ∅ (<[Simple.oauthStateKey := "X"]> ∅) q [] in
  let w1 := Simple.handleCallback sampleDecode sampleConfig w in
  let w2 := Simple.handleCallback sampleDecode sampleConfig (setSearch q w1) in
  q !! "state" = Some "X" ∧
  isAuthenticated (authState w1) = true ∧
  sessionStorage w1 !! Simple.oauthStateKey = None ∧
  is_Some (error (authState w2)) ∧
  effects w2 = effects w1.
Proof.
  intros q w w1 w2.
  assert (Hq : q !! "state" = Some "X") by (vm_compute; reflexivity).
  destruct (csrf_state_single_use sampleDecode sampleConfig q "X" Hq) as [HS _].
  destruct (HS w) as (Hgone & _ & Herr & _ & _ & _ & _ & Heff).
  split; [exact Hq|]. split; [vm_compute; reflexivity|].
  split; [exact Hgone|]. split; [exact Herr | exact Heff].
Defined.

(** ** A provider-reported error *)

(** An error parameter wins over everything else in [handleCallback]: the
    error is recorded, the stored state is consumed, the session fields are
    left as they were. *)
Lemma Simple_handleCallback_error jwtDecode cfg (w : World) (e : string) :
  search w !! "error" = Some e → e ≠ "" →
  let w' := Simple.handleCallback jwtDecode cfg w in
  error (authState w') = Some e ∧
  sessionStorage w' !! Simple.oauthStateKey = None ∧
  isAuthenticated (authState w') = isAuthenticated (authState w) ∧
  user (authState w') = user (authState w) ∧
  token (authState w') = token (authState w) ∧
  localStorage w' = localStorage w ∧
  effects w' = effects w.
Proof.
  intros He Hne. unfold Simple.handleCallback. cbv zeta.
  rewrite He, (truthyStr_nonempty _ Hne). simpl.
  repeat split. apply lookup_delete_eq.
Qed.

Lemma Core_handleAuthCallback_error jwtDecode cfg (s : Core.State) (e : string) :
  search (Core.page s) !! "error" = Some e → e ≠ "" →
  let s' := Core.handleAuthCallback jwtDecode cfg s in
  authState (Core.page s') = mkAuthState false None false (Some e) None ∧
  sessionStorage (Core.page s') !! stateStorageKey cfg = None ∧
  localStorage (Core.page s') = localStorage (Core.page s) ∧
  effects (Core.page s') = effects (Core.page s).
Proof.
  intros He Hne. unfold Core.handleAuthCallback. cbv zeta. simpl.
  rewrite He, (truthyStr_nonempty _ Hne). simpl.
  repeat split. apply lookup_delete_eq.
Qed.

Lemma Mono_handleAuthCallback_error jwtDecode cfg (w : World) (e : string) :
  search w !! "error" = Some e → e ≠ "" →
  let w' := Mono.handleAuthCallback jwtDecode cfg w in
  authState w' = mkAuthState false None false (Some e) None ∧
  sessionStorage w' !! stateStorageKey cfg = None ∧
  localStorage w' = localStorage w ∧
  effects w' = effects w.
Proof.
  intros He Hne. unfold Mono.handleAuthCallback. cbv zeta. simpl.
  rewrite He, (truthyStr_nonempty _ Hne). simpl.
  repeat split. apply lookup_delete_eq.
Qed.

(** C3 as stated fails on [handleCallback] of [src/AuthContext.tsx]: with
    a session restored from storage, the callback
    [?error=access_denied&state=X] records the error and consumes the
    state, but the session stays authenticated with its user and token. *)
Lemma provider_error_keeps_session_counterexample :
  let w := deniedWhileSignedIn in
  let w' := Simple.handleCallback sampleDecode sampleConfig w in
  search w !! "error" = Some "access_denied" ∧
  search w !! "state" = Some "X" ∧
  sessionStorage w !! Simple.oauthStateKey = Some "X" ∧
  error (authState w') = Some "access_denied" ∧
  sessionStorage w' !! Simple.oauthStateKey = None ∧
  isAuthenticated (authState w') = true ∧
  token (authState w') = Some validJWT ∧
  userProp (authState w') "id" = Some (VStr "u1").
Proof. vm_compute. by repeat split. Qed.

(** C3, amended: a callback URL with a non-empty [error] parameter [e]
    (whatever its state parameter and the stored state) is rejected with
    exactly the message [e], not with a state error, and the stored CSRF
    state is consumed.  [handleAuthCallback] sets the session
    unauthenticated (no user, no token); [handleCallback] leaves
    [isAuthenticated], [user] and [token] as they were, so the session is
    unauthenticated there whenever it was before the callback. *)
Theorem provider_error_rejected
    (jwtDecode : string → option jsobj) (cfg : Config) (e : string) (Hne : e ≠ "") :
  (∀ s : Core.State,
     search (Core.page s) !! "error" = Some e →
     let s' := Core.handleAuthCallback jwtDecode cfg s in
     authState (Core.page s') = mkAuthState false None false (Some e) None ∧
     sessionStorage (Core.page s') !! stateStorageKey cfg = None) ∧
  (∀ w : World,
     search w !! "error" = Some e →
     let w' := Simple.handleCallback jwtDecode cfg w in
     error (authState w') = Some e ∧
     sessionStorage w' !! Simple.oauthStateKey = None ∧
     isAuthenticated (authState w') = isAuthenticated (authState w) ∧
     user (authState w') = user (authState w) ∧
     token (authState w') = token (authState w) ∧
     (isAuthenticated (authState w) = false → user (authState w) = None →
      token (authState w) = None →
      isAuthenticated (authState w') = false ∧ user (authState w') = None ∧
      token (authState w') = None)).
Proof.
  split.
  - intros s He s'.
    destruct (Core_handleAuthCallback_error jwtDecode cfg s e He Hne) as (H1 & H2 & _).
    by split.
  - intros w He w'.
    destruct (Simple_handleCallback_error jwtDecode cfg w e He Hne)
      as (H1 & H2 & H3 & H4 & H5 & _).
    fold w' in H1, H2, H3, H4, H5.
    split; [done|]. split; [done|]. split; [done|]. split; [done|]. split; [done|].
    intros Ha Hu Ht. repeat split; congruence.
Qed.

(** [?error=access_denied&state=X] with the stored state ["X"], on a page
    that is not signed in. *)
Lemma provider_error_rejected_witness :
  let q : Query := <["error" := "access_denied"]> (<["state" := "X"]> ∅) in
  let s := Core.mkState
             (mkWorld Core.initialState ∅ (<[stateStorageKey sampleConfig := "X"]> ∅) q [])
             None false in
  let w := mkWorld Simple.initialState ∅ (<[Simple.oauthStateKey := "X"]> ∅) q [] in
  let s' := Core.handleAuthCallback sampleDecode sampleConfig s in
  let w' := Simple.handleCallback sampleDecode sampleConfig w in
  "access_denied" ≠ "" ∧
  authState (Core.page s') = mkAuthState false None false (Some "access_denied") None ∧
  sessionStorage (Core.page s') !! stateStorageKey sampleConfig = None ∧
  error (authState w') = Some "access_denied" ∧
  isAuthenticated (authState w') = false ∧ user (authState w') = None ∧
  token (authState w') = None.
Proof.
  intros q s w s' w'.
  assert (Hne : "access_denied" ≠ "") by discriminate.
  destruct (provider_error_rejected sampleDecode sampleConfig "access_denied" Hne)
    as [HC HS].
  destruct (HC s eq_refl) as [H1 H2].
  destruct (HS w eq_refl) as (H3 & _ & _ & _ & _ & H4).
  destruct (H4 eq_refl eq_refl eq_refl) as (H5 & H6 & H7).
  split; [exact Hne|]. split; [exact H1|]. split; [exact H2|].
  split; [exact H3|]. split; [exact H5|]. split; [exact H6 | exact H7].
Defined.

(** ** Materializing the same token twice *)

Lemma loginCalls_snoc_login (l : list Effect) u t :
  loginCalls (l ++ [LoginSuccess u t]) = S (loginCalls l).
Proof. unfold loginCalls. rewrite filter_app, length_app. simpl. lia. Qed.

(** The three ways through [saveTokenAndUser] of [useAuthCoreState]: the
    token was the last one processed; it decodes; it does not. *)
Lemma Core_saveTokenAndUser_seen jwtDecode cfg t b (s : Core.State) :
  Core.lastProcessedTokenRef s = Some t →
  Core.saveTokenAndUser jwtDecode cfg t b s = s.
Proof. intros H. unfold Core.saveTokenAndUser. by rewrite bool_decide_eq_true_2. Qed.

Lemma Core_saveTokenAndUser_ok jwtDecode cfg t b (s : Core.State) claims :
  Core.lastProcessedTokenRef s ≠ Some t → jwtDecode t = Some claims →
  Core.saveTokenAndUser jwtDecode cfg t b s =
  Core.mkState
    (mkWorld (mkAuthState true (Some (Core.makeUser claims)) false None (Some t))
       (<[tokenStorageKey cfg := t]> (localStorage (Core.page s)))
       (sessionStorage (Core.page s)) (search (Core.page s))
       (if onLoginSuccess cfg
        then effects (Core.page s) ++ [LoginSuccess (Core.makeUser claims) t]
        else effects (Core.page s)))
    (Some t)
    (if b then false else Core.isProcessingAuthCallbackRef s).
Proof.
  intros Hr Hd. unfold Core.saveTokenAndUser.
  rewrite bool_decide_eq_false_2 by done. cbv zeta.
  rewrite Hd. by destruct b, (onLoginSuccess cfg).
Qed.

Lemma Core_saveTokenAndUser_bad jwtDecode cfg t b (s : Core.State) :
  Core.lastProcessedTokenRef s ≠ Some t → jwtDecode t = None →
  Core.saveTokenAndUser jwtDecode cfg t b s =
  Core.mkState
    (mkWorld (mkAuthState (isAuthenticated (authState (Core.page s)))
                (user (authState (Core.page s))) false
                (Some "Authentication processing failed. Invalid token format.")
                (token (authState (Core.page s))))
       (<[tokenStorageKey cfg := t]> (localStorage (Core.page s)))
       (sessionStorage (Core.page s)) (search (Core.page s)) (effects (Core.page s)))
    (Core.lastProcessedTokenRef s)
    (if b then false else Core.isProcessingAuthCallbackRef s).
Proof.
  intros Hr Hd. unfold Core.saveTokenAndUser.
  rewrite bool_decide_eq_false_2 by done. cbv zeta.
  rewrite Hd. by destruct b.
Qed.


(** The same three ways through [decodeAndSetToken] of
    [src/AuthContext.tsx]. *)
Lemma Simple_decodeAndSetToken_seen jwtDecode cfg t b (w : World) :
  token (authState w) = Some t → isAuthenticated (authState w) = true →
  Simple.decodeAndSetToken jwtDecode cfg t b w = w.
Proof.
  intros Ht Ha. unfold Simple.decodeAndSetToken.
  by rewrite bool_decide_eq_true_2, Ha.
Qed.

Lemma Simple_decodeAndSetToken_ok jwtDecode cfg t b (w : World) claims :
  ¬ (token (authState w) = Some t ∧ isAuthenticated (authState w) = true) →
  jwtDecode t = Some claims →
  Simple.decodeAndSetToken jwtDecode cfg t b w =
  mkWorld (mkAuthState true (Some (Simple.makeUser claims)) false None (Some t))
    (<[tokenStorageKey cfg := t]> (localStorage w))
    (sessionStorage w) (search w)
    (if negb b && onLoginSuccess cfg
     then effects w ++ [LoginSuccess (Simple.makeUser claims) t]
     else effects w).
Proof.
  intros Hnew Hd. unfold Simple.decodeAndSetToken.
  destruct (bool_decide (token (authState w) = Some t) && isAuthenticated (authState w))
    eqn:Hact.
  { apply andb_true_iff in Hact as [Ht Ha]. apply bool_decide_eq_true in Ht.
    by destruct Hnew. }
  rewrite Hd. cbv zeta. by destruct (negb b && onLoginSuccess cfg).
Qed.

Lemma Simple_decodeAndSetToken_bad jwtDecode cfg t b (w : World) :
  ¬ (token (authState w) = Some t ∧ isAuthenticated (authState w) = true) →
  jwtDecode t = None →
  Simple.decodeAndSetToken jwtDecode cfg t b w =
  mkWorld (mkAuthState (isAuthenticated (authState w)) (user (authState w)) false
             (Some "Invalid token format") (token (authState w)))
    (localStorage w) (sessionStorage w) (search w) (effects w).
Proof.
  intros Hnew Hd. unfold Simple.decodeAndSetToken.
  destruct (bool_decide (token (authState w) = Some t) && isAuthenticated (authState w))
    eqn:Hact.
  { apply andb_true_iff in Hact as [Ht Ha]. apply bool_decide_eq_true in Ht.
    by destruct Hnew. }
  by rewrite Hd.
Qed.




(** ** Restoring a persisted token *)

(** With a non-empty value stored under the token key, the restore is
    the materialization of that value. *)
Lemma Simple_loadTokenOnMount_stored jwtDecode cfg t (w : World) :
  localStorage w !! tokenStorageKey cfg = Some t → t ≠ "" →
  Simple.loadTokenOnMount jwtDecode cfg w = Simple.decodeAndSetToken jwtDecode cfg t true w.
Proof.
  intros Hls Hne. unfold Simple.loadTokenOnMount. cbv zeta.
  by rewrite Hls, (truthyStr_nonempty _ Hne).
Qed.

Lemma Core_initialEffect_stored jwtDecode cfg t (s : Core.State) :
  Core.isProcessingAuthCallbackRef s = false →
  localStorage (Core.page s) !! tokenStorageKey cfg = Some t → t ≠ "" →
  Core.initialEffect jwtDecode cfg s = Core.saveTokenAndUser jwtDecode cfg t false s.
Proof.
  intros Hp Hls Hne. unfold Core.initialEffect. cbv zeta.
  by rewrite Hp, Hls, (truthyStr_nonempty _ Hne).
Qed.

(** The mount effect of [src/AuthContext.tsx] is passive: after a login
    with [T], a page load and the mount effect, the session has the same
    user and token and the login callback has not been invoked again. *)
Lemma Simple_restore_passive jwtDecode cfg T claims q (w : World) :
  jwtDecode T = Some claims → T ≠ "" →
  ¬ (token (authState w) = Some T ∧ isAuthenticated (authState w) = true) →
  let w1 := Simple.decodeAndSetToken jwtDecode cfg T false w in
  let w2 := Simple.loadTokenOnMount jwtDecode cfg (Simple.pageLoad q w1) in
  authState w2 = authState w1 ∧
  token (authState w2) = Some T ∧
  user (authState w2) = Some (Simple.makeUser claims) ∧
  effects w2 = effects w1.
Proof.
  intros Hdec Hne Hnew w1 w2. subst w2 w1.
  rewrite (Simple_decodeAndSetToken_ok _ _ _ _ _ _ Hnew Hdec).
  rewrite (Simple_loadTokenOnMount_stored _ _ T); [|apply lookup_insert_eq|done].
  rewrite (Simple_decodeAndSetToken_ok _ _ _ _ _ claims); [done| |done].
  simpl. intros [Ht _]. discriminate Ht.
Qed.

(** The initial effect of [useAuthCoreState] is not: it goes through
    [saveTokenAndUser], which invokes the configured login callback once
    more after every page load. *)
Lemma Core_restore_calls_again jwtDecode cfg T claims q b (s : Core.State) :
  jwtDecode T = Some claims → T ≠ "" → onLoginSuccess cfg = true →
  Core.lastProcessedTokenRef s ≠ Some T →
  let s1 := Core.saveTokenAndUser jwtDecode cfg T b s in
  let s2 := Core.initialEffect jwtDecode cfg (Core.pageLoad q s1) in
  authState (Core.page s2) = authState (Core.page s1) ∧
  token (authState (Core.page s2)) = Some T ∧
  user (authState (Core.page s2)) = Some (Core.makeUser claims) ∧
  effects (Core.page s2) = effects (Core.page s1) ++ [LoginSuccess (Core.makeUser claims) T].
Proof.
  intros Hdec Hne Hcb Hnew s1 s2. subst s2 s1.
  rewrite (Core_saveTokenAndUser_ok _ _ _ _ _ _ Hnew Hdec).
  rewrite (Core_initialEffect_stored _ _ T); [|done|apply lookup_insert_eq|done].
  rewrite (Core_saveTokenAndUser_ok _ _ _ _ _ claims); [|done|done].
  simpl. by rewrite Hcb.
Qed.

(** C5, [useAuthCoreState.ts]: a login with [validJWT] on a fresh page,
    then a page load and the initial effect.  The restored session has the
    same user and the token [validJWT], but the login callback has been
    invoked a second time by the restore. *)
Theorem restore_invokes_login_callback :
  let s1 := Core.saveTokenAndUser sampleDecode sampleConfig validJWT true (freshState ∅) in
  let s2 := Core.initialEffect sampleDecode sampleConfig (Core.pageLoad ∅ s1) in
  loginCalls (effects (Core.page s1)) = 1 ∧
  loginCalls (effects (Core.page s2)) = 2 ∧
  token (authState (Core.page s2)) = Some validJWT ∧
  userProp (authState (Core.page s1)) "id" = Some (VStr "u1") ∧
  userProp (authState (Core.page s2)) "id" = Some (VStr "u1").
Proof. vm_compute. by repeat split. Qed.

(** The same run on [src/AuthContext.tsx]: one invocation in all. *)
Lemma Simple_restore_roundtrip_example :
  let w1 := Simple.decodeAndSetToken sampleDecode sampleConfig validJWT false
              (freshWorld Simple.initialState ∅) in
  let w2 := Simple.loadTokenOnMount sampleDecode sampleConfig (Simple.pageLoad ∅ w1) in
  loginCalls (effects w1) = 1 ∧
  loginCalls (effects w2) = 1 ∧
  token (authState w2) = Some validJWT ∧
  userProp (authState w1) "id" = Some (VStr "u1") ∧
  userProp (authState w2) "id" = Some (VStr "u1").
Proof. vm_compute. by repeat split. Qed.

(** ** Restoring a value that does not decode *)

(** C6 as stated fails: after the restore of the stored value
    ["not-a-jwt"], which does not decode, the session is unauthenticated
    with an error, but the value is still in [localStorage] under the
    configured key, in both providers.  And a stored empty string is taken
    for no token at all: no error is reported. *)
Lemma restore_keeps_undecodable_token_counterexample :
  let k := tokenStorageKey sampleConfig in
  let s := Core.mkState (mkWorld Core.initialState (<[k := "not-a-jwt"]> ∅) ∅ ∅ []) None false in
  let s' := Core.initialEffect sampleDecode sampleConfig s in
  let w := mkWorld Simple.initialState (<[k := "not-a-jwt"]> ∅) ∅ ∅ [] in
  let w' := Simple.loadTokenOnMount sampleDecode sampleConfig w in
  let e := Core.mkState (mkWorld Core.initialState (<[k := ""]> ∅) ∅ ∅ []) None false in
  let e' := Core.initialEffect sampleDecode sampleConfig e in
  sampleDecode "not-a-jwt" = None ∧
  isAuthenticated (authState (Core.page s')) = false ∧
  error (authState (Core.page s')) ≠ None ∧
  localStorage (Core.page s') !! k = Some "not-a-jwt" ∧
  isAuthenticated (authState w') = false ∧
  error (authState w') ≠ None ∧
  localStorage w' !! k = Some "not-a-jwt" ∧
  sampleDecode "" = None ∧
  error (authState (Core.page e')) = None.
Proof. vm_compute. by repeat split. Qed.

(** C6, amended: for every non-empty stored value that does not decode,
    the restore on a freshly mounted page yields an unauthenticated session
    (no user, no token) with a non-null error and [isLoading = false];
    [localStorage] is left as it was, so the value is still stored under
    the configured key. *)
Theorem restore_undecodable_token
    (jwtDecode : string → option jsobj) (cfg : Config) (t : string)
    (Hne : t ≠ "") (Hbad : jwtDecode t = None) :
  (∀ s : Core.State,
     Core.mounted s →
     localStorage (Core.page s) !! tokenStorageKey cfg = Some t →
     let s' := Core.initialEffect jwtDecode cfg s in
     authState (Core.page s') =
       mkAuthState false None false
         (Some "Authentication processing failed. Invalid token format.") None ∧
     localStorage (Core.page s') = localStorage (Core.page s) ∧
     localStorage (Core.page s') !! tokenStorageKey cfg = Some t) ∧
  (∀ w : World,
     authState w = Simple.initialState →
     localStorage w !! tokenStorageKey cfg = Some t →
     let w' := Simple.loadTokenOnMount jwtDecode cfg w in
     authState w' = mkAuthState false None false (Some "Invalid token format") None ∧
     localStorage w' = localStorage w ∧
     localStorage w' !! tokenStorageKey cfg = Some t).
Proof.
  split.
  - intros s (Ha & Hr & Hp) Hls s'. subst s'.
    rewrite (Core_initialEffect_stored _ _ t) by done.
    rewrite Core_saveTokenAndUser_bad; [|by rewrite Hr|done]. simpl.
    rewrite Ha, (insert_id _ _ _ Hls). by repeat split.
  - intros w Ha Hls w'. subst w'.
    rewrite (Simple_loadTokenOnMount_stored _ _ t) by done.
    rewrite Simple_decodeAndSetToken_bad; [|by rewrite Ha; intros [? _]|done]. simpl.
    rewrite Ha. by repeat split.
Qed.

Lemma restore_undecodable_token_witness :
  let k := tokenStorageKey sampleConfig in
  let s := Core.mkState (mkWorld Core.initialState (<[k := "not-a-jwt"]> ∅) ∅ ∅ []) None false in
  let s' := Core.initialEffect sampleDecode sampleConfig s in
  "not-a-jwt" ≠ "" ∧ sampleDecode "not-a-jwt" = None ∧
  isAuthenticated (authState (Core.page s')) = false ∧
  localStorage (Core.page s') !! k = Some "not-a-jwt".
Proof.
  intros k s s'.
  assert (Hne : "not-a-jwt" ≠ "") by discriminate.
  assert (Hbad : sampleDecode "not-a-jwt" = None) by reflexivity.
  destruct (restore_undecodable_token sampleDecode sampleConfig "not-a-jwt" Hne Hbad)
    as [HC _].
  assert (Hm : Core.mounted s) by (by repeat split).
  destruct (HC s Hm eq_refl) as (H1 & _ & H3).
  split; [exact Hne|]. split; [exact Hbad|].
  split; [exact (f_equal isAuthenticated H1) | exact H3].
Defined.

(** ** The subject claim *)

(** C8 as stated fails: the payload of [noSubJWT] has no subject claim,
    yet both providers materialize it: authenticated, no error, and a user
    whose [id] is [undefined]. *)
Lemma missing_subject_accepted_counterexample :
  let s' := Core.saveTokenAndUser sampleDecode sampleConfig noSubJWT true (freshState ∅) in
  let w' := Simple.decodeAndSetToken sampleDecode sampleConfig noSubJWT false
              (freshWorld Simple.initialState ∅) in
  (sampleDecode noSubJWT ≫= (λ claims, claims !! "sub")) = None ∧
  isAuthenticated (authState (Core.page s')) = true ∧
  error (authState (Core.page s')) = None ∧
  token (authState (Core.page s')) = Some noSubJWT ∧
  userProp (authState (Core.page s')) "id" = Some VUndef ∧
  isAuthenticated (authState w') = true ∧
  error (authState w') = None ∧
  userProp (authState w') "id" = Some VUndef.
Proof. vm_compute. by repeat split. Qed.

(** In [decodeAndSetToken] the payload is spread after [id], so an [id]
    claim replaces the subject: [withIdJWT] has the subject ["u1"] and the
    user [id] ["other"].  [saveTokenAndUser] writes [id] after the spread
    and keeps the subject. *)
Lemma Simple_id_claim_overrides_subject_example :
  let w' := Simple.decodeAndSetToken sampleDecode sampleConfig withIdJWT false
              (freshWorld Simple.initialState ∅) in
  let s' := Core.saveTokenAndUser sampleDecode sampleConfig withIdJWT true (freshState ∅) in
  (sampleDecode withIdJWT ≫= (λ claims, claims !! "sub")) = Some (VStr "u1") ∧
  userProp (authState w') "id" = Some (VStr "other") ∧
  userProp (authState (Core.page s')) "id" = Some (VStr "u1").
Proof. vm_compute. by repeat split. Qed.

(** C8, amended: a token whose payload decodes is materialized whether or
    not the payload has a subject claim; no decode error is raised for a
    missing subject.  In [saveTokenAndUser] the user's [id] is the subject
    claim ([undefined] when the payload has none).  In [decodeAndSetToken],
    for a payload without an [id] claim of its own, the user's [id] is the
    subject claim when that is truthy and [undefined] otherwise. *)
Theorem materialize_subject_claim
    (jwtDecode : string → option jsobj) (cfg : Config) (tok : string) (claims : jsobj)
    (Hdec : jwtDecode tok = Some claims) :
  (∀ (s : Core.State) (b : bool),
     Core.lastProcessedTokenRef s ≠ Some tok →
     let s' := Core.saveTokenAndUser jwtDecode cfg tok b s in
     authState (Core.page s') =
       mkAuthState true (Some (Core.makeUser claims)) false None (Some tok) ∧
     prop (Core.makeUser claims) "id" = prop claims "sub" ∧
     (claims !! "sub" = None → prop (Core.makeUser claims) "id" = VUndef)) ∧
  (∀ (w : World) (b : bool),
     ¬ (token (authState w) = Some tok ∧ isAuthenticated (authState w) = true) →
     let w' := Simple.decodeAndSetToken jwtDecode cfg tok b w in
     authState w' =
       mkAuthState true (Some (Simple.makeUser claims)) false None (Some tok) ∧
     (claims !! "id" = None → truthy (prop claims "sub") = true →
      prop (Simple.makeUser claims) "id" = prop claims "sub") ∧
     (claims !! "id" = None → truthy (prop claims "sub") = false →
      prop (Simple.makeUser claims) "id" = VUndef)).
Proof.
  split.
  - intros s b Hnew s'. split; [|split].
    + subst s'. unfold_core. rewrite bool_decide_eq_false_2 by done. rewrite Hdec.
      by destruct b, (onLoginSuccess cfg).
    + apply Core_makeUser_id.
    + intros Hsub. rewrite Core_makeUser_id. unfold prop. by rewrite Hsub.
  - intros w b Hnew w'. split; [|split].
    + subst w'. unfold_simple.
      destruct (bool_decide (token (authState w) = Some tok) && isAuthenticated (authState w))
        eqn:Hact.
      * apply andb_true_iff in Hact as [Ht Ha]. apply bool_decide_eq_true in Ht.
        by destruct Hnew.
      * rewrite Hdec. by destruct (negb b && onLoginSuccess cfg).
    + intros Hid Ht. rewrite (Simple_makeUser_id _ Hid). unfold js_or. by rewrite Ht.
    + intros Hid Ht. rewrite (Simple_makeUser_id _ Hid). unfold js_or. by rewrite Ht.
Qed.

Lemma materialize_subject_claim_witness :
  let s' := Core.saveTokenAndUser sampleDecode sampleConfig validJWT true (freshState ∅) in
  is_Some (sampleDecode validJWT) ∧
  isAuthenticated (authState (Core.page s')) = true ∧
  userProp (authState (Core.page s')) "id" = Some (VStr "u1").
Proof.
  intros s'.
  assert (Hdec : sampleDecode validJWT =
                 Some (<["sub" := VStr "u1"]> (<["email" := VStr "a@b.com"]> ∅)))
    by reflexivity.
  destruct (materialize_subject_claim sampleDecode sampleConfig validJWT _ Hdec) as [HC _].
  assert (Hs : Core.lastProcessedTokenRef (freshState ∅) ≠ Some validJWT) by discriminate.
  destruct (HC (freshState ∅) true Hs) as (H1 & H2 & _).
  split; [by rewrite Hdec|]. fold s' in H1. rewrite H1.
  split; [reflexivity|]. unfold userProp. simpl. by rewrite H2.
Defined.

(** ** Clearing the session *)

(** C9 as stated fails: on a page whose session is already the empty one
    and whose storage holds no token, clearing still invokes the configured
    logout callback. *)
Lemma clear_empty_invokes_logout_counterexample :
  let s := Core.mkState (freshWorld emptySession ∅) None false in
  let s' := Core.clearTokenAndUser sampleConfig s in
  let w := freshWorld emptySession ∅ in
  let w' := Simple.logout sampleConfig None w in
  authState (Core.page s) = emptySession ∧
  localStorage (Core.page s) !! tokenStorageKey sampleConfig = None ∧
  effects (Core.page s) = [] ∧
  effects (Core.page s') = [LogoutSuccess] ∧
  logoutCalls (effects (Core.page s')) = 1 ∧
  authState (Core.page s') = emptySession ∧
  effects w' = [LogoutSuccess] ∧
  authState w' = emptySession.
Proof. vm_compute. by repeat split. Qed.

(** C9, amended: clearing always yields the canonical empty session
    ([authenticated = false], no user, no token, [loading = false], no
    error) and leaves no token under the configured key, and it invokes the
    configured logout callback once at every call, also when the session was
    already empty. *)
Theorem clear_returns_empty_session (cfg : Config) :
  (∀ s : Core.State,
     let s' := Core.clearTokenAndUser cfg s in
     authState (Core.page s') = emptySession ∧
     localStorage (Core.page s') !! tokenStorageKey cfg = None ∧
     Core.lastProcessedTokenRef s' = None ∧
     effects (Core.page s') =
       effects (Core.page s) ++ (if onLogoutSuccess cfg then [LogoutSuccess] else [])) ∧
  (∀ (w : World) (r : option string),
     let w' := Simple.logout cfg r w in
     authState w' = emptySession ∧
     localStorage w' !! tokenStorageKey cfg = None ∧
     effects w' =
       effects w ++ (if onLogoutSuccess cfg then [LogoutSuccess] else [])
                 ++ (if truthyStr r then [Navigate (default "" r)] else [])).
Proof.
  split.
  - intros s s'. subst s'. unfold_core.
    destruct (onLogoutSuccess cfg); simpl; rewrite ?app_nil_r;
      repeat split; apply lookup_delete_eq.
  - intros w r w'. subst w'. unfold_simple.
    destruct (onLogoutSuccess cfg), (truthyStr r); simpl;
      rewrite <- ?app_assoc, ?app_nil_r; repeat split; apply lookup_delete_eq.
Qed.

(** ** Invariants of the reachable states *)

(** [lastProcessedTokenRef] only ever holds a token that decoded. *)
Lemma Core_saveTokenAndUser_ref jwtDecode cfg t b (s : Core.State) t' :
  Core.lastProcessedTokenRef (Core.saveTokenAndUser jwtDecode cfg t b s) = Some t' →
  Core.lastProcessedTokenRef s = Some t' ∨ is_Some (jwtDecode t').
Proof.
  unfold_core.
  destruct (bool_decide (Core.lastProcessedTokenRef s = Some t)); [by left|].
  destruct (jwtDecode t) as [claims|] eqn:Hd.
  - destruct b, (onLoginSuccess cfg); simpl; intros [= <-]; right; by rewrite Hd.
  - destruct b; simpl; by left.
Qed.

Lemma Core_step_ref jwtDecode cfg (s s' : Core.State) t' :
  Core.step jwtDecode cfg s s' →
  Core.lastProcessedTokenRef s' = Some t' →
  Core.lastProcessedTokenRef s = Some t' ∨ is_Some (jwtDecode t').
Proof.
  intros Hstep. destruct Hstep; simpl; try done; try (by left).
  - unfold Core.initialEffect. repeat case_match; try (by left).
    apply Core_saveTokenAndUser_ref.
  - apply Core_saveTokenAndUser_ref.
  - unfold Core.clearTokenAndUser. by case_match.
  - unfold Core.loginWithEmailRequest. case_match; by left.
  - unfold Core.handleAuthCallback. repeat case_match; try (by left).
    unfold Core.onPage at 1. simpl. intros Href.
    apply Core_saveTokenAndUser_ref in Href as [Href|Href]; [by left | by right].
  - unfold Core.logout, Core.clearTokenAndUser. by case_match.
Qed.

Lemma Core_reachable_ref_decodes jwtDecode cfg (s : Core.State) t :
  Core.reachable jwtDecode cfg s →
  Core.lastProcessedTokenRef s = Some t → is_Some (jwtDecode t).
Proof.
  intros (s0 & (_ & Hr0 & _) & Hrtc). revert t.
  eapply (rtc_ind_r
            (λ s, ∀ t, Core.lastProcessedTokenRef s = Some t → is_Some (jwtDecode t)));
    [ | | exact Hrtc].
  - intros t Ht. congruence.
  - intros s1 s2 _ Hstep IH t Ht.
    destruct (Core_step_ref _ _ _ _ _ Hstep Ht); eauto.
Qed.

(** In [src/AuthContext.tsx], the session only ever holds a token that
    decoded. *)
Lemma Simple_decodeAndSetToken_token jwtDecode cfg t b (w : World) t' :
  token (authState (Simple.decodeAndSetToken jwtDecode cfg t b w)) = Some t' →
  token (authState w) = Some t' ∨ is_Some (jwtDecode t').
Proof.
  unfold_simple.
  destruct (bool_decide (token (authState w) = Some t) && isAuthenticated (authState w));
    [by left|].
  destruct (jwtDecode t) as [claims|] eqn:Hd.
  - destruct (negb b && onLoginSuccess cfg); simpl; intros [= <-]; right; by rewrite Hd.
  - simpl. by left.
Qed.

Lemma Simple_step_token jwtDecode cfg (w w' : World) t' :
  Simple.step jwtDecode cfg w w' →
  token (authState w') = Some t' →
  token (authState w) = Some t' ∨ is_Some (jwtDecode t').
Proof.
  intros Hstep. destruct Hstep; simpl; try done; try (by left).
  - unfold Simple.loadTokenOnMount. case_match; [|by left].
    apply Simple_decodeAndSetToken_token.
  - apply Simple_decodeAndSetToken_token.
  - unfold Simple.loginWithEmail. case_match; by left.
  - unfold Simple.logout. by repeat case_match.
  - unfold Simple.handleCallback. repeat case_match; try (by left).
    intros Htok. by apply Simple_decodeAndSetToken_token in Htok as [Htok|Htok]; [left | right].
Qed.

Lemma Simple_reachable_token_decodes jwtDecode cfg (w : World) t :
  Simple.reachable jwtDecode cfg w →
  token (authState w) = Some t → is_Some (jwtDecode t).
Proof.
  intros (w0 & H0 & Hrtc). revert t.
  eapply (rtc_ind_r (λ w, ∀ t, token (authState w) = Some t → is_Some (jwtDecode t)));
    [ | | exact Hrtc].
  - intros t Ht. by rewrite H0 in Ht.
  - intros w1 w2 _ Hstep IH t Ht.
    destruct (Simple_step_token _ _ _ _ _ Hstep Ht); eauto.
Qed.

(** Every operation of [src/AuthContext.tsx] keeps the session
    consistent: user and token are present exactly when it is
    authenticated. *)
Lemma Simple_decodeAndSetToken_consistent jwtDecode cfg t b (w : World) :
  sessionConsistent (authState w) →
  sessionConsistent (authState (Simple.decodeAndSetToken jwtDecode cfg t b w)).
Proof.
  unfold sessionConsistent. unfold_simple.
  destruct w as [[a u l e k] ls ss q ef]; simpl.
  split_conditions; by eauto.
Qed.

Lemma Simple_step_consistent jwtDecode cfg (w w' : World) :
  Simple.step jwtDecode cfg w w' →
  sessionConsistent (authState w) → sessionConsistent (authState w').
Proof.
  intros Hstep Hc. destruct Hstep; try done.
  - unfold Simple.loadTokenOnMount. case_match; [|done].
    by apply Simple_decodeAndSetToken_consistent.
  - by apply Simple_decodeAndSetToken_consistent.
  - unfold Simple.loginWithEmail. by case_match.
  - unfold Simple.logout. by repeat case_match.
  - unfold Simple.handleCallback. repeat case_match; try done.
    by apply Simple_decodeAndSetToken_consistent.
Qed.

Lemma Simple_reachable_consistent jwtDecode cfg (w : World) :
  Simple.reachable jwtDecode cfg w → sessionConsistent (authState w).
Proof.
  intros (w0 & H0 & Hrtc).
  eapply (rtc_ind_r (λ w, sessionConsistent (authState w))); [ | | exact Hrtc].
  - by rewrite H0.
  - intros w1 w2 _ Hstep IH. eapply Simple_step_consistent; eauto.
Qed.

(** The operations of [useAuthCoreState] keep it consistent too. *)
Lemma Core_saveTokenAndUser_consistent jwtDecode cfg t b (s : Core.State) :
  sessionConsistent (authState (Core.page s)) →
  sessionConsistent (authState (Core.page (Core.saveTokenAndUser jwtDecode cfg t b s))).
Proof.
  unfold sessionConsistent. unfold_core.
  destruct s as [[[a u l e k] ls ss q ef] r p]; simpl.
  split_conditions; by eauto.
Qed.

Lemma Core_initialEffect_consistent jwtDecode cfg (s : Core.State) :
  sessionConsistent (authState (Core.page s)) →
  sessionConsistent (authState (Core.page (Core.initialEffect jwtDecode cfg s))).
Proof.
  intros Hc. unfold Core.initialEffect. repeat case_match; try done.
  by apply Core_saveTokenAndUser_consistent.
Qed.

Lemma Core_clearTokenAndUser_consistent cfg (s : Core.State) :
  sessionConsistent (authState (Core.page (Core.clearTokenAndUser cfg s))).
Proof. unfold Core.clearTokenAndUser. by case_match. Qed.

(** [handleAuthCallback] keeps the session consistent except in its last
    branch (state accepted, no token in the URL), which keeps the previous
    token next to [isAuthenticated = false]. *)
Lemma Core_handleAuthCallback_consistent jwtDecode cfg (s : Core.State) :
  sessionConsistent (authState (Core.page s)) →
  truthyStr (search (Core.page s) !! "token") = true ∨
  token (authState (Core.page s)) = None →
  sessionConsistent (authState (Core.page (Core.handleAuthCallback jwtDecode cfg s))).
Proof.
  intros Hc Hside. unfold Core.handleAuthCallback. cbv zeta.
  destruct (truthyStr (search (Core.page _) !! "error")); [done|].
  destruct (negb (Mono.stateAccepted _ _)); [done|].
  destruct (truthyStr (search (Core.page _) !! "token")) eqn:Htok.
  - unfold Core.onPage at 1. simpl. apply Core_saveTokenAndUser_consistent.
    simpl. exact Hc.
  - destruct Hside as [Hside|Hside]; [by rewrite Hside in Htok|].
    simpl in *. unfold sessionConsistent. simpl. by rewrite Hside.
Qed.

(** So every step of the two hooks keeps the session consistent, unless
    it is a callback without a token on a page whose session holds one. *)
Lemma Core_step_consistent jwtDecode cfg (s s' : Core.State) :
  Core.step jwtDecode cfg s s' →
  sessionConsistent (authState (Core.page s)) →
  sessionConsistent (authState (Core.page s')) ∨
  (s' = Core.handleAuthCallback jwtDecode cfg s ∧
   truthyStr (search (Core.page s) !! "token") = false ∧
   is_Some (token (authState (Core.page s)))).
Proof.
  intros Hstep Hc. destruct Hstep; try (by left).
  - left. by apply Core_initialEffect_consistent.
  - left. by apply Core_saveTokenAndUser_consistent.
  - left. apply Core_clearTokenAndUser_consistent.
  - left. unfold Core.loginWithEmailRequest. by case_match.
  - destruct (truthyStr (search (Core.page s) !! "token")) eqn:Htok.
    { left. apply Core_handleAuthCallback_consistent; auto. }
    destruct (token (authState (Core.page s))) as [t|] eqn:Ht.
    { right. by eauto. }
    left. apply Core_handleAuthCallback_consistent; auto.
  - left. unfold Core.logout. simpl. apply Core_clearTokenAndUser_consistent.
Qed.

(** ** A token that fails to decode *)

(** C10: when a token that does not decode is materialized, the session's
    [isAuthenticated], [user] and [token] stay as they were; [isLoading]
    becomes [false] and [error] the failure message.  This holds in every
    reachable state of the two hooks and of [src/AuthContext.tsx], and in
    every state of the monolithic provider. *)
Theorem failed_materialize_keeps_session
    (jwtDecode : string → option jsobj) (cfg : Config) (tok : string)
    (Hbad : jwtDecode tok = None) :
  (∀ (s : Core.State) (b : bool),
     Core.reachable jwtDecode cfg s →
     let s' := Core.saveTokenAndUser jwtDecode cfg tok b s in
     isAuthenticated (authState (Core.page s')) = isAuthenticated (authState (Core.page s)) ∧
     user (authState (Core.page s')) = user (authState (Core.page s)) ∧
     token (authState (Core.page s')) = token (authState (Core.page s)) ∧
     isLoading (authState (Core.page s')) = false ∧
     error (authState (Core.page s')) =
       Some "Authentication processing failed. Invalid token format.") ∧
  (∀ (w : World) (b : bool),
     Simple.reachable jwtDecode cfg w →
     let w' := Simple.decodeAndSetToken jwtDecode cfg tok b w in
     isAuthenticated (authState w') = isAuthenticated (authState w) ∧
     user (authState w') = user (authState w) ∧
     token (authState w') = token (authState w) ∧
     isLoading (authState w') = false ∧
     error (authState w') = Some "Invalid token format") ∧
  (∀ w : World,
     let w' := Mono.saveTokenAndUser jwtDecode cfg tok w in
     isAuthenticated (authState w') = isAuthenticated (authState w) ∧
     user (authState w') = user (authState w) ∧
     token (authState w') = token (authState w) ∧
     isLoading (authState w') = false ∧
     error (authState w') = Some "Authentication processing failed: Invalid token.").
Proof.
  split; [|split].
  - intros s b Hreach s'.
    assert (Hnew : Core.lastProcessedTokenRef s ≠ Some tok).
    { intros Hr. apply (Core_reachable_ref_decodes _ _ _ _ Hreach) in Hr.
      rewrite Hbad in Hr. by destruct Hr. }
    subst s'. unfold_core. rewrite bool_decide_eq_false_2 by done. rewrite Hbad.
    by destruct b.
  - intros w b Hreach w'.
    assert (Hnew : token (authState w) ≠ Some tok).
    { intros Hr. apply (Simple_reachable_token_decodes _ _ _ _ Hreach) in Hr.
      rewrite Hbad in Hr. by destruct Hr. }
    subst w'. unfold_simple. rewrite bool_decide_eq_false_2 by done. simpl.
    by rewrite Hbad.
  - intros w w'. subst w'. unfold_mono. by rewrite Hbad.
Qed.

(** A session established with [validJWT], then ["not-a-jwt"]. *)
Lemma failed_materialize_keeps_session_witness :
  let s := Core.saveTokenAndUser sampleDecode sampleConfig validJWT true (freshState ∅) in
  let s' := Core.saveTokenAndUser sampleDecode sampleConfig "not-a-jwt" true s in
  sampleDecode "not-a-jwt" = None ∧
  isAuthenticated (authState (Core.page s)) = true ∧
  isAuthenticated (authState (Core.page s')) = true ∧
  token (authState (Core.page s')) = Some validJWT ∧
  isLoading (authState (Core.page s')) = false ∧
  error (authState (Core.page s')) =
    Some "Authentication processing failed. Invalid token format.".
Proof.
  intros s s'.
  assert (Hbad : sampleDecode "not-a-jwt" = None) by reflexivity.
  destruct (failed_materialize_keeps_session sampleDecode sampleConfig "not-a-jwt" Hbad)
    as (HC & _ & _).
  assert (Hreach : Core.reachable sampleDecode sampleConfig s).
  { exists (freshState ∅). split; [by repeat split|].
    apply rtc_once. apply Core.step_saveTokenAndUser. }
  destruct (HC s true Hreach) as (H1 & _ & H3 & H4 & H5).
  fold s' in H1, H3, H4, H5.
  split; [exact Hbad|]. split; [reflexivity|].
  split; [by rewrite H1|]. split; [by rewrite H3|]. split; [exact H4 | exact H5].
Defined.

(** Without the reachability assumption the three session fields are
    still untouched. *)
Lemma Core_failed_saveTokenAndUser_frame jwtDecode cfg tok b (s : Core.State) :
  jwtDecode tok = None →
  let s' := Core.saveTokenAndUser jwtDecode cfg tok b s in
  isAuthenticated (authState (Core.page s')) = isAuthenticated (authState (Core.page s)) ∧
  user (authState (Core.page s')) = user (authState (Core.page s)) ∧
  token (authState (Core.page s')) = token (authState (Core.page s)) ∧
  localStorage (Core.page s') !! tokenStorageKey cfg =
    (if bool_decide (Core.lastProcessedTokenRef s = Some tok)
     then localStorage (Core.page s) !! tokenStorageKey cfg else Some tok).
Proof.
  intros Hbad s'. subst s'. unfold_core.
  destruct (bool_decide (Core.lastProcessedTokenRef s = Some tok)); [done|].
  rewrite Hbad. destruct b; simpl; by rewrite lookup_insert_eq.
Qed.

(** ** The session invariant *)

(** C7, the two hooks: a user signs in with [validJWT], starts another
    login (state ["X"]), and comes back at the callback URL [?state=X],
    which has no token and no error.  The page restores the session, then
    [handleAuthCallback] takes its last branch, which resets
    [isAuthenticated] and [user] but keeps [token]: the state reached is
    unauthenticated with a token, against the invariant. *)
Theorem tokenless_callback_breaks_invariant :
  let s := tokenlessCallbackRun in
  Core.reachable sampleDecode sampleConfig s ∧
  isAuthenticated (authState (Core.page s)) = false ∧
  user (authState (Core.page s)) = None ∧
  token (authState (Core.page s)) = Some validJWT ∧
  ¬ sessionConsistent (authState (Core.page s)).
Proof.
  intros s. split; [|split; [|split; [|split]]].
  - exists (freshState ∅). split; [by repeat split|].
    subst s. unfold tokenlessCallbackRun.
    eapply rtc_l; [apply (Core.step_saveTokenAndUser _ _ validJWT true)|].
    eapply rtc_l; [apply (Core.step_loginWithProvider _ _ "google"
                            "https://app.example/auth/callback" None "X")|].
    eapply rtc_l; [apply (Core.step_pageLoad _ _ (<["state" := "X"]> ∅))|].
    eapply rtc_l; [apply Core.step_initialEffect|].
    apply rtc_once. apply Core.step_handleAuthCallback.
  - by vm_compute.
  - by vm_compute.
  - by vm_compute.
  - assert (H : authState (Core.page s) =
                mkAuthState false None false
                  (Some "Authentication completed without a token, but state was valid.")
                  (Some validJWT)) by (by vm_compute).
    rewrite H. unfold sessionConsistent. simpl. intros [_ Ht]. discriminate Ht.
Qed.

(** The monolithic provider shares that branch: a restored session, the
    stored state ["X"] and the callback URL [?state=X]. *)
Lemma Mono_tokenless_callback_example :
  let w := Mono.initialEffect sampleDecode sampleConfig
             (mkWorld Mono.initialState
                (<[tokenStorageKey sampleConfig := validJWT]> ∅)
                (<[stateStorageKey sampleConfig := "X"]> ∅)
                (<["state" := "X"]> ∅) []) in
  let w' := Mono.handleAuthCallback sampleDecode sampleConfig w in
  isAuthenticated (authState w) = true ∧
  isAuthenticated (authState w') = false ∧
  userProp (authState w') "id" = None ∧
  token (authState w') = Some validJWT.
Proof. vm_compute. by repeat split. Qed.

(** * Further properties of the code *)

(** ** The CSRF state generator *)

Lemma encodeByte_shape (b : byte) :
  ∃ c1 c2, padStart 2 "0" (toString16 b) = String c1 (String c2 EmptyString) ∧
           isHexDigit c1 = true ∧ isHexDigit c2 = true.
Proof. destruct b; do 2 eexists; (split; [reflexivity | split; reflexivity]). Qed.

Lemma parseHexByte_encodeByte (b : byte) :
  parseHexByte (padStart 2 "0" (toString16 b)) = Some b.
Proof. destruct b; reflexivity. Qed.

Lemma append_nil_r (x : string) : x +:+ "" = x.
Proof.
  induction x as [|c x IH]; [done|].
  change (String c (x +:+ "") = String c x). by rewrite IH.
Qed.

Lemma append_two_chars (c1 c2 : ascii) (s : string) :
  String c1 (String c2 EmptyString) +:+ s = String c1 (String c2 s).
Proof. reflexivity. Qed.

Lemma concat_empty_cons (x : string) (xs : list string) :
  String.concat "" (x :: xs) = x +:+ String.concat "" xs.
Proof. destruct xs as [|y ys]; simpl; [by rewrite append_nil_r | done]. Qed.

Lemma generateState_cons (b : byte) (array : list byte) :
  generateState (b :: array) = padStart 2 "0" (toString16 b) +:+ generateState array.
Proof. unfold generateState. rewrite fmap_cons. apply concat_empty_cons. Qed.

Lemma generateState_length (array : list byte) :
  String.length (generateState array) = 2 * length array.
Proof.
  induction array as [|b array IH]; [done|].
  rewrite generateState_cons.
  destruct (encodeByte_shape b) as (c1 & c2 & -> & _).
  rewrite append_two_chars. simpl. rewrite IH. lia.
Qed.

Lemma generateState_hex (array : list byte) :
  allHexDigits (generateState array) = true.
Proof.
  induction array as [|b array IH]; [done|].
  rewrite generateState_cons.
  destruct (encodeByte_shape b) as (c1 & c2 & -> & H1 & H2).
  rewrite append_two_chars. simpl. by rewrite H1, H2, IH.
Qed.

Lemma generateState_inj (a1 a2 : list byte) :
  generateState a1 = generateState a2 → a1 = a2.
Proof.
  revert a2. induction a1 as [|b1 a1 IH]; intros [|b2 a2].
  - done.
  - rewrite generateState_cons.
    destruct (encodeByte_shape b2) as (c1 & c2 & -> & _).
    rewrite append_two_chars. discriminate.
  - rewrite generateState_cons.
    destruct (encodeByte_shape b1) as (c1 & c2 & -> & _).
    rewrite append_two_chars. discriminate.
  - rewrite !generateState_cons.
    pose proof (parseHexByte_encodeByte b1) as P1.
    pose proof (parseHexByte_encodeByte b2) as P2.
    destruct (encodeByte_shape b1) as (c1 & c2 & E1 & _).
    destruct (encodeByte_shape b2) as (d1 & d2 & E2 & _).
    rewrite E1 in P1 |- *. rewrite E2 in P2 |- *. rewrite !append_two_chars.
    intros [= -> -> Hrest]. rewrite P1 in P2. injection P2 as ->.
    f_equal. by apply IH.
Qed.

(** X1: the state drawn for a login, from the 32 random bytes, is a string
    of 64 characters, all of them in [0-9a-f]; in particular it is not
    empty, so it is truthy wherever the code tests it. *)
Theorem generateState_shape (array : list byte) (Hlen : length array = 32) :
  String.length (generateState array) = 64 ∧
  allHexDigits (generateState array) = true ∧
  truthyStr (Some (generateState array)) = true.
Proof.
  split; [by rewrite generateState_length, Hlen|].
  split; [apply generateState_hex|].
  apply truthyStr_nonempty. intros Hempty.
  pose proof (generateState_length array) as Hl.
  rewrite Hempty, Hlen in Hl. discriminate Hl.
Qed.

Lemma generateState_shape_witness :
  let array := replicate 31 x00 ++ [xff] in
  length array = 32 ∧ String.length (generateState array) = 64.
Proof.
  intros array.
  assert (Hlen : length array = 32) by reflexivity.
  destruct (generateState_shape array Hlen) as (H & _ & _).
  split; [exact Hlen | exact H].
Defined.

(** X2: two different byte arrays never give the same state: the encoding
    keeps all of the randomness. *)
Theorem generateState_distinct (a1 a2 : list byte) (Hne : a1 ≠ a2) :
  generateState a1 ≠ generateState a2.
Proof. intros Heq. apply Hne. by apply generateState_inj. Qed.

Lemma generateState_distinct_witness :
  [x01; x10] ≠ [x10; x01] ∧
  generateState [x01; x10] ≠ generateState [x10; x01].
Proof.
  assert (Hne : [x01; x10] ≠ [x10; x01]) by discriminate.
  split; [exact Hne|].
  exact (generateState_distinct _ _ Hne).
Defined.

(** ** A login and its callback *)

(** What [handleAuthCallback] has done when it reaches its token test. *)
Lemma Core_handleAuthCallback_accepted jwtDecode cfg (s : Core.State) tok :
  truthyStr (search (Core.page s) !! "error") = false →
  Mono.stateAccepted (search (Core.page s) !! "state")
    (sessionStorage (Core.page s) !! stateStorageKey cfg) = true →
  search (Core.page s) !! "token" = Some tok → tok ≠ "" →
  Core.handleAuthCallback jwtDecode cfg s =
  Core.onPage (setSearch ∅)
    (Core.saveTokenAndUser jwtDecode cfg tok true
       (Core.mkState
          (mkWorld
             (mkAuthState (isAuthenticated (authState (Core.page s)))
                (user (authState (Core.page s))) true None
                (token (authState (Core.page s))))
             (localStorage (Core.page s))
             (delete (stateStorageKey cfg) (sessionStorage (Core.page s)))
             (search (Core.page s)) (effects (Core.page s)))
          (Core.lastProcessedTokenRef s) (Core.isProcessingAuthCallbackRef s))).
Proof.
  intros He Hacc Htok Hne. unfold Core.handleAuthCallback. cbv zeta. simpl.
  by rewrite He, Hacc, Htok, (truthyStr_nonempty _ Hne).
Qed.

Lemma Simple_handleCallback_accepted jwtDecode cfg (w : World) tok :
  truthyStr (search w !! "error") = false →
  search w !! "state" = sessionStorage w !! Simple.oauthStateKey →
  search w !! "token" = Some tok → tok ≠ "" →
  Simple.handleCallback jwtDecode cfg w =
  Simple.decodeAndSetToken jwtDecode cfg tok false
    (mkWorld (authState w) (localStorage w)
       (delete Simple.oauthStateKey (sessionStorage w)) ∅ (effects w)).
Proof.
  intros He Hacc Htok Hne. unfold Simple.handleCallback. cbv zeta.
  rewrite He, Htok, (truthyStr_nonempty _ Hne). unfold Simple.stateAccepted.
  by rewrite bool_decide_eq_true_2.
Qed.

(** X3, the two hooks: a login is started (the state is the application's
    own when it passed a non-empty one, the generated one otherwise), the
    server sends the browser back with that state and a token that
    decodes.  Then [handleAuthCallback] establishes the session: the user
    of the token, the token persisted, the stored state consumed, the
    query string removed, and the login callback invoked once. *)
Theorem Core_login_round_trip
    (jwtDecode : string → option jsobj) (cfg : Config)
    (provider redirectUri : string) (appState : option string) (rnd tok : string)
    (claims : jsobj) (q : Query)
    (Hrnd : rnd ≠ "") (Htok : tok ≠ "") (Hdec : jwtDecode tok = Some claims)
    (Hqt : q !! "token" = Some tok)
    (Hqs : q !! "state" = Some (if truthyStr appState then default "" appState else rnd))
    (Hqe : q !! "error" = None) :
  ∀ s : Core.State,
    let spaState := if truthyStr appState then default "" appState else rnd in
    let s1 := Core.loginWithProvider cfg provider redirectUri appState rnd s in
    let s2 := Core.handleAuthCallback jwtDecode cfg (Core.pageLoad q s1) in
    sessionStorage (Core.page s1) !! stateStorageKey cfg = Some spaState ∧
    authState (Core.page s2) =
      mkAuthState true (Some (Core.makeUser claims)) false None (Some tok) ∧
    localStorage (Core.page s2) !! tokenStorageKey cfg = Some tok ∧
    sessionStorage (Core.page s2) !! stateStorageKey cfg = None ∧
    search (Core.page s2) = ∅ ∧
    effects (Core.page s2) =
      effects (Core.page s) ++ [NavigateLogin provider redirectUri spaState]
        ++ (if onLoginSuccess cfg then [LoginSuccess (Core.makeUser claims) tok] else []).
Proof.
  intros s spaState s1 s2.
  assert (Hspa : spaState ≠ "").
  { subst spaState. destruct (truthyStr appState) eqn:Ha; [|done].
    by apply truthyStr_Some in Ha as (a & -> & Hne). }
  assert (Hss : sessionStorage (Core.page s1) !! stateStorageKey cfg = Some spaState).
  { subst s1. unfold Core.loginWithProvider. simpl. apply lookup_insert_eq. }
  split; [done|]. subst s2.
  rewrite (Core_handleAuthCallback_accepted _ _ _ tok); simpl;
    [ | by rewrite Hqe | | done | done ].
  2:{ apply Mono_stateAccepted_spec. exists spaState. rewrite Hqs.
      split; [done|]. split; [done|]. exact Hss. }
  rewrite (Core_saveTokenAndUser_ok _ _ _ _ _ claims); [|done|done]. simpl.
  split; [done|]. split; [apply lookup_insert_eq|]. split; [apply lookup_delete_eq|].
  split; [done|].
  subst s1. unfold Core.loginWithProvider. simpl.
  destruct (onLoginSuccess cfg); by rewrite <- ?app_assoc, ?app_nil_r.
Qed.

Lemma Core_login_round_trip_witness :
  let q : Query := <["token" := validJWT]> (<["state" := "5f"]> ∅) in
  let s1 := Core.loginWithProvider sampleConfig "google" "https://app.example/auth/callback"
              None "5f" (freshState ∅) in
  let s2 := Core.handleAuthCallback sampleDecode sampleConfig (Core.pageLoad q s1) in
  "5f" ≠ "" ∧ is_Some (sampleDecode validJWT) ∧
  isAuthenticated (authState (Core.page s2)) = true ∧
  localStorage (Core.page s2) !! tokenStorageKey sampleConfig = Some validJWT.
Proof.
  intros q s1 s2.
  assert (Hrnd : "5f" ≠ "") by discriminate.
  assert (Htok : validJWT ≠ "") by discriminate.
  assert (Hdec : sampleDecode validJWT =
                 Some (<["sub" := VStr "u1"]> (<["email" := VStr "a@b.com"]> ∅)))
    by reflexivity.
  destruct (Core_login_round_trip sampleDecode sampleConfig "google"
              "https://app.example/auth/callback" None "5f" validJWT _ q
              Hrnd Htok Hdec eq_refl eq_refl eq_refl (freshState ∅))
    as (_ & H2 & H3 & _).
  split; [exact Hrnd|]. split; [by rewrite Hdec|].
  split; [exact (f_equal isAuthenticated H2) | exact H3].
Defined.

(** X4, [src/AuthContext.tsx]: the same round trip through
    [loginWithProvider] and [handleCallback]. *)
Theorem Simple_login_round_trip
    (jwtDecode : string → option jsobj) (cfg : Config)
    (provider redirectUri st tok : string) (claims : jsobj) (q : Query)
    (Htok : tok ≠ "") (Hdec : jwtDecode tok = Some claims)
    (Hqt : q !! "token" = Some tok) (Hqs : q !! "state" = Some st)
    (Hqe : q !! "error" = None) :
  ∀ w : World,
    let w1 := Simple.loginWithProvider provider redirectUri st w in
    let w2 := Simple.handleCallback jwtDecode cfg (Simple.pageLoad q w1) in
    sessionStorage w1 !! Simple.oauthStateKey = Some st ∧
    authState w2 = mkAuthState true (Some (Simple.makeUser claims)) false None (Some tok) ∧
    localStorage w2 !! tokenStorageKey cfg = Some tok ∧
    sessionStorage w2 !! Simple.oauthStateKey = None ∧
    search w2 = ∅ ∧
    effects w2 =
      effects w ++ [NavigateLogin provider redirectUri st]
        ++ (if onLoginSuccess cfg then [LoginSuccess (Simple.makeUser claims) tok] else []).
Proof.
  intros w w1 w2.
  assert (Hss : sessionStorage w1 !! Simple.oauthStateKey = Some st).
  { subst w1. unfold Simple.loginWithProvider. simpl. apply lookup_insert_eq. }
  assert (Heff : effects w1 = effects w ++ [NavigateLogin provider redirectUri st])
    by done.
  split; [done|]. subst w2. clearbody w1.
  rewrite (Simple_handleCallback_accepted _ _ _ tok); simpl;
    [ | by rewrite Hqe | by rewrite Hqs, Hss | done | done ].
  rewrite (Simple_decodeAndSetToken_ok _ _ _ _ _ claims); [|by intros [? _]|done]. simpl.
  split; [done|]. split; [apply lookup_insert_eq|]. split; [apply lookup_delete_eq|].
  split; [done|]. rewrite Heff.
  destruct (onLoginSuccess cfg); by rewrite <- ?app_assoc, ?app_nil_r.
Qed.

Lemma Simple_login_round_trip_witness :
  let q : Query := <["token" := validJWT]> (<["state" := "5f"]> ∅) in
  let w1 := Simple.loginWithProvider "github" "https://app.example/auth/callback" "5f"
              (freshWorld Simple.initialState ∅) in
  let w2 := Simple.handleCallback sampleDecode sampleConfig (Simple.pageLoad q w1) in
  is_Some (sampleDecode validJWT) ∧
  isAuthenticated (authState w2) = true ∧
  localStorage w2 !! tokenStorageKey sampleConfig = Some validJWT.
Proof.
  intros q w1 w2.
  assert (Htok : validJWT ≠ "") by discriminate.
  assert (Hdec : sampleDecode validJWT =
                 Some (<["sub" := VStr "u1"]> (<["email" := VStr "a@b.com"]> ∅)))
    by reflexivity.
  destruct (Simple_login_round_trip sampleDecode sampleConfig "github"
              "https://app.example/auth/callback" "5f" validJWT _ q
              Htok Hdec eq_refl eq_refl eq_refl (freshWorld Simple.initialState ∅))
    as (_ & H2 & H3 & _).
  split; [by rewrite Hdec|].
  split; [exact (f_equal isAuthenticated H2) | exact H3].
Defined.

(** ** A callback with the wrong state *)

Lemma Mono_stateAccepted_mismatch (X Y : string) :
  Y ≠ X → Mono.stateAccepted (Some Y) (Some X) = false.
Proof.
  intros Hne. apply not_true_is_false. rewrite Mono_stateAccepted_spec.
  intros (s & _ & [= ->] & [= ->]). done.
Qed.

Lemma Core_handleAuthCallback_mismatch jwtDecode cfg (s : Core.State) (X Y : string) :
  Y ≠ X →
  search (Core.page s) !! "state" = Some Y →
  sessionStorage (Core.page s) !! stateStorageKey cfg = Some X →
  truthyStr (search (Core.page s) !! "error") = false →
  Core.handleAuthCallback jwtDecode cfg s =
  Core.mkState
    (mkWorld
       (mkAuthState false None false
          (Some (Mono.invalidStateMessage (Some Y) (Some X))) None)
       (localStorage (Core.page s))
       (delete (stateStorageKey cfg) (sessionStorage (Core.page s)))
       (search (Core.page s)) (effects (Core.page s)))
    (Core.lastProcessedTokenRef s) (Core.isProcessingAuthCallbackRef s).
Proof.
  intros Hne Hst Hss He. unfold Core.handleAuthCallback. cbv zeta. simpl.
  by rewrite He, Hst, Hss, (Mono_stateAccepted_mismatch _ _ Hne).
Qed.

(** X5: a callback whose state parameter [Y] differs from the stored
    state [X] (and that carries no error) is rejected whatever token it
    brings: nothing is written to token storage, no callback runs, the
    stored state is consumed.  [handleAuthCallback] resets the session with
    a message that quotes both values and leaves the query string in
    place; [handleCallback] records ["Invalid state parameter"], keeps the
    session fields and empties the query string. *)
Theorem callback_state_mismatch_rejected
    (jwtDecode : string → option jsobj) (cfg : Config) (X Y : string) (Hne : Y ≠ X) :
  (∀ s : Core.State,
     search (Core.page s) !! "state" = Some Y →
     sessionStorage (Core.page s) !! stateStorageKey cfg = Some X →
     truthyStr (search (Core.page s) !! "error") = false →
     let s' := Core.handleAuthCallback jwtDecode cfg s in
     authState (Core.page s') =
       mkAuthState false None false
         (Some ("Invalid state. URL: " +:+ Y +:+ ", Stored: " +:+ X)) None ∧
     localStorage (Core.page s') = localStorage (Core.page s) ∧
     effects (Core.page s') = effects (Core.page s) ∧
     sessionStorage (Core.page s') !! stateStorageKey cfg = None ∧
     search (Core.page s') = search (Core.page s)) ∧
  (∀ w : World,
     search w !! "state" = Some Y →
     sessionStorage w !! Simple.oauthStateKey = Some X →
     truthyStr (search w !! "error") = false →
     let w' := Simple.handleCallback jwtDecode cfg w in
     authState w' =
       mkAuthState (isAuthenticated (authState w)) (user (authState w))
         (isLoading (authState w)) (Some "Invalid state parameter")
         (token (authState w)) ∧
     localStorage w' = localStorage w ∧
     effects w' = effects w ∧
     sessionStorage w' !! Simple.oauthStateKey = None ∧
     search w' = ∅).
Proof.
  split.
  - intros s Hst Hss He s'. subst s'.
    rewrite (Core_handleAuthCallback_mismatch _ _ _ X Y) by done. simpl.
    repeat split. apply lookup_delete_eq.
  - intros w Hst Hss He w'. subst w'.
    unfold Simple.handleCallback. cbv zeta. rewrite He, Hst, Hss.
    unfold Simple.stateAccepted. rewrite bool_decide_eq_false_2 by congruence. simpl.
    repeat split. apply lookup_delete_eq.
Qed.

Lemma callback_state_mismatch_rejected_witness :
  let q : Query := <["token" := validJWT]> (<["state" := "Y"]> ∅) in
  let s := Core.mkState
             (mkWorld Core.initialState ∅ (<[stateStorageKey sampleConfig := "X"]> ∅) q [])
             None false in
  let s' := Core.handleAuthCallback sampleDecode sampleConfig s in
  "Y" ≠ "X" ∧
  error (authState (Core.page s')) = Some "Invalid state. URL: Y, Stored: X" ∧
  isAuthenticated (authState (Core.page s')) = false ∧
  localStorage (Core.page s') !! tokenStorageKey sampleConfig = None.
Proof.
  intros q s s'.
  assert (Hne : "Y" ≠ "X") by discriminate.
  destruct (callback_state_mismatch_rejected sampleDecode sampleConfig "X" "Y" Hne)
    as [HC _].
  destruct (HC s eq_refl eq_refl eq_refl) as (H1 & H2 & _).
  fold s' in H1, H2.
  split; [exact Hne|]. rewrite H1, H2. by repeat split.
Defined.



(** ** What the operations leave alone in storage *)

Lemma Core_saveTokenAndUser_localStorage_frame jwtDecode cfg t b (s : Core.State) k :
  k ≠ tokenStorageKey cfg →
  localStorage (Core.page (Core.saveTokenAndUser jwtDecode cfg t b s)) !! k =
  localStorage (Core.page s) !! k.
Proof.
  intros Hk.
  destruct (decide (Core.lastProcessedTokenRef s = Some t)) as [Hr|Hr].
  { by rewrite Core_saveTokenAndUser_seen. }
  destruct (jwtDecode t) as [claims|] eqn:Hd.
  - rewrite (Core_saveTokenAndUser_ok _ _ _ _ _ _ Hr Hd). simpl.
    by rewrite lookup_insert_ne.
  - rewrite (Core_saveTokenAndUser_bad _ _ _ _ _ Hr Hd). simpl.
    by rewrite lookup_insert_ne.
Qed.

Lemma Simple_decodeAndSetToken_localStorage_frame jwtDecode cfg t b (w : World) k :
  k ≠ tokenStorageKey cfg →
  localStorage (Simple.decodeAndSetToken jwtDecode cfg t b w) !! k = localStorage w !! k.
Proof.
  intros Hk.
  destruct (decide (token (authState w) = Some t ∧ isAuthenticated (authState w) = true))
    as [[Ht Ha]|Hnew].
  { by rewrite Simple_decodeAndSetToken_seen. }
  destruct (jwtDecode t) as [claims|] eqn:Hd.
  - rewrite (Simple_decodeAndSetToken_ok _ _ _ _ _ _ Hnew Hd). simpl.
    by rewrite lookup_insert_ne.
  - by rewrite (Simple_decodeAndSetToken_bad _ _ _ _ _ Hnew Hd).
Qed.

(** X7, the two hooks: whatever happens on the page, [localStorage] only
    changes under the token key and [sessionStorage] only under the state
    key; every other entry of the origin's storage is left as it is. *)
Theorem Core_step_storage_frame
    (jwtDecode : string → option jsobj) (cfg : Config) (s s' : Core.State)
    (Hstep : Core.step jwtDecode cfg s s') :
  (∀ k, k ≠ tokenStorageKey cfg →
        localStorage (Core.page s') !! k = localStorage (Core.page s) !! k) ∧
  (∀ k, k ≠ stateStorageKey cfg →
        sessionStorage (Core.page s') !! k = sessionStorage (Core.page s) !! k).
Proof.
  destruct Hstep.
  - done.
  - done.
  - unfold Core.initialEffect. repeat case_match; try done.
    split; intros k Hk.
    + by apply Core_saveTokenAndUser_localStorage_frame.
    + by rewrite Core_saveTokenAndUser_sessionStorage.
  - split; intros k Hk.
    + by apply Core_saveTokenAndUser_localStorage_frame.
    + by rewrite Core_saveTokenAndUser_sessionStorage.
  - unfold Core.clearTokenAndUser.
    case_match; simpl; (split; intros k Hk; [by rewrite lookup_delete_ne | done]).
  - unfold Core.loginWithProvider. simpl.
    split; intros k Hk; [done | by rewrite lookup_insert_ne].
  - unfold Core.loginWithEmailRequest.
    case_match; simpl; (split; intros k Hk; [done | by rewrite lookup_insert_ne]).
  - unfold Core.handleAuthCallback. cbv zeta.
    repeat case_match; simpl;
      (split; intros k Hk;
       [ rewrite ?Core_saveTokenAndUser_localStorage_frame by done; done
       | rewrite ?Core_saveTokenAndUser_sessionStorage; simpl;
         by rewrite lookup_delete_ne ]).
  - unfold Core.logout. simpl. unfold Core.clearTokenAndUser.
    destruct (onLogoutSuccess cfg); simpl;
      (split; intros k Hk; [by rewrite lookup_delete_ne | done]).
Qed.

Lemma Core_step_storage_frame_witness :
  let s := Core.mkState
             (mkWorld Core.initialState (<["theme" := "dark"]> ∅)
                (<["cart" := "3"]> (<[stateStorageKey sampleConfig := "X"]> ∅))
                (<["token" := validJWT]> (<["state" := "X"]> ∅)) [])
             None false in
  let s' := Core.handleAuthCallback sampleDecode sampleConfig s in
  localStorage (Core.page s') !! "theme" = Some "dark" ∧
  sessionStorage (Core.page s') !! "cart" = Some "3".
Proof.
  intros s s'.
  destruct (Core_step_storage_frame sampleDecode sampleConfig s s'
              (Core.step_handleAuthCallback _ _ s)) as [HL HS].
  split.
  - rewrite HL by discriminate. reflexivity.
  - rewrite HS by discriminate. reflexivity.
Defined.

(** X8, [src/AuthContext.tsx]: the same, with the state under
    ['oauth_state']. *)
Theorem Simple_step_storage_frame
    (jwtDecode : string → option jsobj) (cfg : Config) (w w' : World)
    (Hstep : Simple.step jwtDecode cfg w w') :
  (∀ k, k ≠ tokenStorageKey cfg → localStorage w' !! k = localStorage w !! k) ∧
  (∀ k, k ≠ Simple.oauthStateKey → sessionStorage w' !! k = sessionStorage w !! k).
Proof.
  destruct Hstep.
  - done.
  - done.
  - unfold Simple.loadTokenOnMount. case_match; [|done].
    split; intros k Hk.
    + by apply Simple_decodeAndSetToken_localStorage_frame.
    + by rewrite Simple_decodeAndSetToken_sessionStorage.
  - split; intros k Hk.
    + by apply Simple_decodeAndSetToken_localStorage_frame.
    + by rewrite Simple_decodeAndSetToken_sessionStorage.
  - unfold Simple.loginWithProvider. simpl.
    split; intros k Hk; [done | by rewrite lookup_insert_ne].
  - unfold Simple.loginWithEmail.
    case_match; simpl; (split; intros k Hk; [done | by rewrite lookup_insert_ne]).
  - unfold Simple.logout.
    repeat case_match; simpl; (split; intros k Hk; [by rewrite lookup_delete_ne | done]).
  - unfold Simple.handleCallback. cbv zeta.
    repeat case_match; simpl;
      (split; intros k Hk;
       [ rewrite ?Simple_decodeAndSetToken_localStorage_frame by done; done
       | rewrite ?Simple_decodeAndSetToken_sessionStorage; simpl;
         by rewrite lookup_delete_ne ]).
Qed.

Lemma Simple_step_storage_frame_witness :
  let w := mkWorld Simple.initialState (<["theme" := "dark"]> ∅)
             (<["cart" := "3"]> ∅) ∅ [] in
  let w' := Simple.logout sampleConfig None w in
  localStorage w' !! "theme" = Some "dark" ∧
  sessionStorage w' !! "cart" = Some "3".
Proof.
  intros w w'.
  destruct (Simple_step_storage_frame sampleDecode sampleConfig w w'
              (Simple.step_logout _ _ None w)) as [HL HS].
  split.
  - rewrite HL by discriminate. reflexivity.
  - rewrite HS by discriminate. reflexivity.
Defined.

(** ** Logout *)

(** X9: after a logout the session does not come back with the next page
    load: the restore finds no token, the session is unauthenticated and
    not loading, and no login callback runs.  In both providers. *)
Theorem logout_survives_reload (jwtDecode : string → option jsobj) (cfg : Config) :
  (∀ (s : Core.State) (origin : string) (r : option string) (q : Query),
     let s1 := Core.logout cfg origin r s in
     let s2 := Core.initialEffect jwtDecode cfg (Core.pageLoad q s1) in
     localStorage (Core.page s1) !! tokenStorageKey cfg = None ∧
     authState (Core.page s2) = mkAuthState false None false None None ∧
     localStorage (Core.page s2) = localStorage (Core.page s1) ∧
     effects (Core.page s2) = effects (Core.page s1)) ∧
  (∀ (w : World) (r : option string) (q : Query),
     let w1 := Simple.logout cfg r w in
     let w2 := Simple.loadTokenOnMount jwtDecode cfg (Simple.pageLoad q w1) in
     localStorage w1 !! tokenStorageKey cfg = None ∧
     authState w2 = mkAuthState false None false None None ∧
     localStorage w2 = localStorage w1 ∧
     effects w2 = effects w1).
Proof.
  split.
  - intros s origin r q s1 s2.
    assert (Hls : localStorage (Core.page s1) !! tokenStorageKey cfg = None).
    { subst s1. unfold Core.logout. simpl. unfold Core.clearTokenAndUser.
      destruct (onLogoutSuccess cfg); simpl; apply lookup_delete_eq. }
    split; [done|]. subst s2. clearbody s1.
    unfold Core.initialEffect, Core.pageLoad. cbv zeta. simpl. by rewrite Hls.
  - intros w r q w1 w2.
    assert (Hls : localStorage w1 !! tokenStorageKey cfg = None).
    { subst w1. unfold Simple.logout.
      destruct (onLogoutSuccess cfg), (truthyStr r); simpl; apply lookup_delete_eq. }
    split; [done|]. subst w2. clearbody w1.
    unfold Simple.loadTokenOnMount, Simple.pageLoad. cbv zeta. simpl. by rewrite Hls.
Qed.

(** ** The loading flag after a callback *)

(** X10: [handleAuthCallback] sets [isLoading] and every way through it
    clears the flag again, except one: when the callback is accepted and
    its token is the one [saveTokenAndUser] processed last, the call
    returns early and the session stays loading (otherwise unchanged, and
    nothing is persisted or reported). *)
Theorem Core_handleAuthCallback_loading
    (jwtDecode : string → option jsobj) (cfg : Config) (s : Core.State) :
  let s' := Core.handleAuthCallback jwtDecode cfg s in
  let err := search (Core.page s) !! "error" in
  let st := search (Core.page s) !! "state" in
  let tok := search (Core.page s) !! "token" in
  let stored := sessionStorage (Core.page s) !! stateStorageKey cfg in
  let replayed := negb (truthyStr err) && Mono.stateAccepted st stored && truthyStr tok
                  && bool_decide (Core.lastProcessedTokenRef s = tok) in
  isLoading (authState (Core.page s')) = replayed ∧
  (replayed = true →
   authState (Core.page s') =
     mkAuthState (isAuthenticated (authState (Core.page s)))
       (user (authState (Core.page s))) true None (token (authState (Core.page s))) ∧
   localStorage (Core.page s') = localStorage (Core.page s) ∧
   effects (Core.page s') = effects (Core.page s)).
Proof.
  intros s' err st tok stored replayed. subst s' replayed err st tok stored.
  destruct (truthyStr (search (Core.page s) !! "error")) eqn:He.
  { unfold Core.handleAuthCallback. cbv zeta. simpl. rewrite He. simpl. by split. }
  destruct (Mono.stateAccepted (search (Core.page s) !! "state")
              (sessionStorage (Core.page s) !! stateStorageKey cfg)) eqn:Hacc.
  2:{ unfold Core.handleAuthCallback. cbv zeta. simpl. rewrite He, Hacc. simpl. by split. }
  destruct (truthyStr (search (Core.page s) !! "token")) eqn:Ht.
  2:{ unfold Core.handleAuthCallback. cbv zeta. simpl. rewrite He, Hacc, Ht. simpl.
      by split. }
  destruct (truthyStr_Some _ Ht) as (t & Htok & Hne).
  rewrite (Core_handleAuthCallback_accepted _ _ _ t) by done. rewrite Htok. simpl.
  destruct (decide (Core.lastProcessedTokenRef s = Some t)) as [Hr|Hr].
  - rewrite Core_saveTokenAndUser_seen by done. simpl.
    rewrite bool_decide_eq_true_2 by done. by split.
  - rewrite bool_decide_eq_false_2 by done.
    destruct (jwtDecode t) as [claims|] eqn:Hd.
    + rewrite (Core_saveTokenAndUser_ok _ _ _ _ _ claims) by done. by split.
    + rewrite Core_saveTokenAndUser_bad by done. by split.
Qed.

(** ** Running [handleCallback] twice *)

Lemma Simple_decodeAndSetToken_search jwtDecode cfg t b (w : World) :
  search (Simple.decodeAndSetToken jwtDecode cfg t b w) = search w.
Proof. unfold_simple. by split_conditions. Qed.

Lemma Simple_handleCallback_search jwtDecode cfg (w : World) :
  search (Simple.handleCallback jwtDecode cfg w) = ∅.
Proof.
  unfold Simple.handleCallback. cbv zeta.
  repeat case_match; by rewrite ?Simple_decodeAndSetToken_search.
Qed.

(** X11, [src/AuthContext.tsx]: [handleCallback] has no guard against a
    second run.  The first run has emptied the query string and removed the
    stored state, so the second one passes the state test ([null] equals
    [null]), finds no token and records ["No token received"], whatever the
    first run did, also over a session it has just established.  Nothing
    else changes. *)
Theorem Simple_handleCallback_twice
    (jwtDecode : string → option jsobj) (cfg : Config) (w : World) :
  let w1 := Simple.handleCallback jwtDecode cfg w in
  let w2 := Simple.handleCallback jwtDecode cfg w1 in
  authState w2 =
    mkAuthState (isAuthenticated (authState w1)) (user (authState w1))
      (isLoading (authState w1)) (Some "No token received") (token (authState w1)) ∧
  localStorage w2 = localStorage w1 ∧
  sessionStorage w2 = sessionStorage w1 ∧
  search w2 = ∅ ∧
  effects w2 = effects w1.
Proof.
  intros w1 w2.
  pose proof (Simple_handleCallback_search jwtDecode cfg w) as Hq.
  pose proof (Simple_handleCallback_consumes jwtDecode cfg w) as Hs.
  fold w1 in Hq, Hs. subst w2. clearbody w1.
  unfold Simple.handleCallback. cbv zeta. rewrite Hq, Hs, !lookup_empty. simpl.
  repeat split. by apply delete_id.
Qed.

(** A run in which the flag stays set: the session of [validJWT] has been
    restored from storage when the callback [?token=validJWT&state=X]
    is handled. *)
Lemma Core_handleAuthCallback_loading_witness :
  let s := Core.initialEffect sampleDecode sampleConfig
             (Core.mkState
                (mkWorld Core.initialState
                   (<[tokenStorageKey sampleConfig := validJWT]> ∅)
                   (<[stateStorageKey sampleConfig := "X"]> ∅)
                   (<["token" := validJWT]> (<["state" := "X"]> ∅)) [])
                None false) in
  let s' := Core.handleAuthCallback sampleDecode sampleConfig s in
  Core.lastProcessedTokenRef s = Some validJWT ∧
  isLoading (authState (Core.page s)) = false ∧
  isLoading (authState (Core.page s')) = true ∧
  effects (Core.page s') = effects (Core.page s).
Proof.
  intros s s'.
  destruct (Core_handleAuthCallback_loading sampleDecode sampleConfig s) as [H1 H2].
  destruct (H2 eq_refl) as (_ & _ & H3).
  split; [reflexivity|]. split; [reflexivity|]. split; [exact H1 | exact H3].
Defined.

(** ** The email login request *)

(** X12: the email request never changes who is signed in and never
    touches the token storage; it stores the state it posts, and it always
    ends with [isLoading = false].  After an ok response there is no error;
    after any failure the two hooks leave a non-empty error message, and
    [src/AuthContext.tsx] the message of what was thrown. *)
Theorem email_login_request_outcome
    (cfg : Config) (email redirectUri : string) (resp : EmailResponse) :
  (∀ (appState : option string) (rnd : string) (s : Core.State),
     let spaState := if truthyStr appState then default "" appState else rnd in
     let s' := Core.loginWithEmailRequest cfg email redirectUri appState rnd resp s in
     isAuthenticated (authState (Core.page s')) = isAuthenticated (authState (Core.page s)) ∧
     user (authState (Core.page s')) = user (authState (Core.page s)) ∧
     token (authState (Core.page s')) = token (authState (Core.page s)) ∧
     isLoading (authState (Core.page s')) = false ∧
     localStorage (Core.page s') = localStorage (Core.page s) ∧
     sessionStorage (Core.page s') !! stateStorageKey cfg = Some spaState ∧
     effects (Core.page s') =
       effects (Core.page s) ++ [PostEmailLogin email redirectUri spaState] ∧
     (resp = RespOk → error (authState (Core.page s')) = None) ∧
     (resp ≠ RespOk → ∃ m, error (authState (Core.page s')) = Some m ∧ m ≠ "")) ∧
  (∀ (st : string) (w : World),
     let w' := Simple.loginWithEmail email redirectUri st resp w in
     isAuthenticated (authState w') = isAuthenticated (authState w) ∧
     user (authState w') = user (authState w) ∧
     token (authState w') = token (authState w) ∧
     isLoading (authState w') = false ∧
     localStorage w' = localStorage w ∧
     sessionStorage w' !! Simple.oauthStateKey = Some st ∧
     effects w' = effects w ++ [PostEmailLogin email redirectUri st] ∧
     error (authState w') =
       match resp with
       | RespOk => None
       | RespNotOk _ => Some "Failed to request email login"
       | FetchThrew m => Some m
       end).
Proof.
  split.
  - intros appState rnd s spaState s'. subst s' spaState.
    unfold Core.loginWithEmailRequest. cbv zeta.
    destruct resp as [|m|m]; simpl;
      (do 5 (split; [done|])); (split; [apply lookup_insert_eq|]);
      (split; [done|]); (split; [done|]).
    + intros Hne. by destruct Hne.
    + intros _. eexists. split; [reflexivity|].
      by destruct m as [[|a m]|].
    + intros _. eexists. split; [reflexivity|].
      by destruct m as [|a m].
  - intros st w w'. subst w'.
    unfold Simple.loginWithEmail. cbv zeta.
    destruct resp as [|m|m]; simpl;
      (do 5 (split; [done|])); (split; [apply lookup_insert_eq|]); by split.
Qed.

(** ** The callback component *)

Lemma Handler_runEffect_provider jwtDecode cfg props e (s : Handler.State) :
  let s' := Handler.runEffect jwtDecode cfg props e s in
  (Handler.provider s' = Handler.provider s ∧
   Handler.callbackProcessedRef s' = Handler.callbackProcessedRef s) ∨
  (Handler.callbackProcessedRef s = false ∧
   Handler.has (search (Core.page (Handler.provider s))) "token"
   || Handler.has (search (Core.page (Handler.provider s))) "state"
   || Handler.has (search (Core.page (Handler.provider s))) "error" = true ∧
   Handler.provider s' = Core.handleAuthCallback jwtDecode cfg (Handler.provider s) ∧
   Handler.callbackProcessedRef s' = true).
Proof.
  destruct e; simpl.
  - unfold Handler.processEffect. cbv zeta.
    destruct (Handler.has _ "token" || Handler.has _ "state" || Handler.has _ "error")
      eqn:Hhas; simpl.
    + destruct (Handler.callbackProcessedRef s) eqn:Href; simpl.
      * left. by case_match.
      * right. by repeat split.
    + left. by case_match.
  - left. unfold Handler.notifyEffect. cbv zeta. by repeat case_match.
Qed.

(** X13: however often and in whatever order the two effects of the
    component run (with nothing else acting on the provider in between),
    [handleAuthCallback] is called at most once per mount: the provider is
    either untouched or has handled the callback exactly once.  It is never
    called on a page whose URL has none of the [token], [state] and [error]
    parameters. *)
Theorem Handler_processes_at_most_once
    (jwtDecode : string → option jsobj) (cfg : Config) (props : Handler.Props)
    (schedule : list Handler.EffectRun) (p : Core.State) :
  let s := Handler.runEffects jwtDecode cfg props schedule (Handler.mount p) in
  ((Handler.provider s = p ∧ Handler.callbackProcessedRef s = false) ∨
   (Handler.provider s = Core.handleAuthCallback jwtDecode cfg p ∧
    Handler.callbackProcessedRef s = true)) ∧
  (Handler.has (search (Core.page p)) "token"
   || Handler.has (search (Core.page p)) "state"
   || Handler.has (search (Core.page p)) "error" = false →
   Handler.provider s = p).
Proof.
  intros s. subst s.
  assert (Hinv : ∀ schedule s0,
    ((Handler.provider s0 = p ∧ Handler.callbackProcessedRef s0 = false) ∨
     (Handler.provider s0 = Core.handleAuthCallback jwtDecode cfg p ∧
      Handler.callbackProcessedRef s0 = true)) →
    let s := Handler.runEffects jwtDecode cfg props schedule s0 in
    ((Handler.provider s = p ∧ Handler.callbackProcessedRef s = false) ∨
     (Handler.provider s = Core.handleAuthCallback jwtDecode cfg p ∧
      Handler.callbackProcessedRef s = true)) ∧
    (Handler.has (search (Core.page p)) "token"
     || Handler.has (search (Core.page p)) "state"
     || Handler.has (search (Core.page p)) "error" = false →
     Handler.callbackProcessedRef s0 = false → Handler.provider s = p)).
  { clear schedule. intros schedule.
    induction schedule as [|e schedule IH]; intros s0 H0; simpl.
    - split; [done|]. intros _ Href. destruct H0 as [[? _]|[_ ?]]; [done|congruence].
    - pose proof (Handler_runEffect_provider jwtDecode cfg props e s0) as Hstep.
      simpl in Hstep.
      destruct Hstep as [[Hp Hr]|(Hr0 & Hhas & Hp & Hr)].
      + destruct (IH (Handler.runEffect jwtDecode cfg props e s0)) as [IH1 IH2].
        { by rewrite Hp, Hr. }
        split; [exact IH1|]. intros Hno Href. apply IH2; [done | by rewrite Hr].
      + destruct H0 as [[H0p _]|[_ H0r]]; [|congruence].
        destruct (IH (Handler.runEffect jwtDecode cfg props e s0)) as [IH1 _].
        { right. by rewrite Hp, Hr, H0p. }
        split; [exact IH1|]. intros Hno _. rewrite H0p in Hhas. congruence. }
  destruct (Hinv schedule (Handler.mount p)) as [H1 H2]; [by left|].
  split; [exact H1|]. intros Hno. by apply H2.
Qed.




(** X15, the component around [handleCallback]: after the callback has
    been handled with a provider error [e] on a page that is not loading,
    the notice goes by [isAuthenticated] first.  A page that was signed in
    reports success although the callback was rejected; otherwise the error
    is passed to [onError]. *)
Theorem SimpleHandler_provider_error_notice
    (jwtDecode : string → option jsobj) (cfg : Config) (props : Handler.Props)
    (e : string) (He : e ≠ "") :
  ∀ w : World,
    search w !! "error" = Some e →
    isLoading (authState w) = false →
    SimpleHandler.notifyEffect props (authState (SimpleHandler.mountEffect jwtDecode cfg w)) =
      if isAuthenticated (authState w) && Handler.onSuccess props
      then Some Handler.Success
      else if Handler.onError props then Some (Handler.Failure e) else None.
Proof.
  intros w Hq Hl. unfold SimpleHandler.mountEffect.
  destruct (Simple_handleCallback_error jwtDecode cfg w e Hq He)
    as (H1 & _ & H3 & _).
  assert (Hl' : isLoading (authState (Simple.handleCallback jwtDecode cfg w)) = false).
  { unfold Simple.handleCallback. cbv zeta.
    by rewrite Hq, (truthyStr_nonempty _ He). }
  unfold SimpleHandler.notifyEffect. rewrite Hl', H3, H1. simpl.
  destruct e; [done|]. done.
Qed.

Lemma SimpleHandler_provider_error_notice_witness :
  let w' := SimpleHandler.mountEffect sampleDecode sampleConfig deniedWhileSignedIn in
  "access_denied" ≠ "" ∧
  error (authState w') = Some "access_denied" ∧
  SimpleHandler.notifyEffect (Handler.mkProps true true) (authState w') =
    Some Handler.Success.
Proof.
  intros w'.
  assert (Hne : "access_denied" ≠ "") by discriminate.
  pose proof (SimpleHandler_provider_error_notice sampleDecode sampleConfig
                (Handler.mkProps true true) "access_denied" Hne
                deniedWhileSignedIn eq_refl eq_refl) as H.
  split; [exact Hne|]. split; [by vm_compute|]. exact H.
Defined.

(** ** Token storage and the session *)

(** X16: [saveTokenAndUser] writes the token to [localStorage] before it
    decodes it.  So a token that does not decode leaves the session as it
    was but replaces the stored token, and the next page load restores
    nothing: the session is unauthenticated with the decode error.
    [decodeAndSetToken] of [src/AuthContext.tsx] stores only what decoded
    and leaves [localStorage] alone here. *)
Theorem failed_materialize_replaces_stored_token
    (jwtDecode : string → option jsobj) (cfg : Config) (bad : string)
    (Hne : bad ≠ "") (Hbad : jwtDecode bad = None) :
  (∀ (s : Core.State) (b : bool) (q : Query),
     Core.reachable jwtDecode cfg s →
     let s1 := Core.saveTokenAndUser jwtDecode cfg bad b s in
     let s2 := Core.initialEffect jwtDecode cfg (Core.pageLoad q s1) in
     localStorage (Core.page s1) !! tokenStorageKey cfg = Some bad ∧
     token (authState (Core.page s1)) = token (authState (Core.page s)) ∧
     authState (Core.page s2) =
       mkAuthState false None false
         (Some "Authentication processing failed. Invalid token format.") None) ∧
  (∀ (w : World) (b : bool),
     localStorage (Simple.decodeAndSetToken jwtDecode cfg bad b w) = localStorage w).
Proof.
  split.
  - intros s b q Hreach s1 s2.
    assert (Hnew : Core.lastProcessedTokenRef s ≠ Some bad).
    { intros Hr. apply (Core_reachable_ref_decodes _ _ _ _ Hreach) in Hr.
      rewrite Hbad in Hr. by destruct Hr. }
    assert (H1 : s1 = Core.saveTokenAndUser jwtDecode cfg bad b s) by done.
    rewrite (Core_saveTokenAndUser_bad _ _ _ _ _ Hnew Hbad) in H1.
    assert (Hls : localStorage (Core.page s1) !! tokenStorageKey cfg = Some bad).
    { rewrite H1. simpl. apply lookup_insert_eq. }
    split; [done|]. split; [by rewrite H1|].
    subst s2. clearbody s1.
    rewrite (Core_initialEffect_stored _ _ bad); [|done|done|done].
    rewrite Core_saveTokenAndUser_bad; [|done|done]. done.
  - intros w b.
    destruct (decide (token (authState w) = Some bad ∧ isAuthenticated (authState w) = true))
      as [[Ht Ha]|Hnew].
    + by rewrite Simple_decodeAndSetToken_seen.
    + by rewrite Simple_decodeAndSetToken_bad.
Qed.

Lemma failed_materialize_replaces_stored_token_witness :
  let s := Core.saveTokenAndUser sampleDecode sampleConfig validJWT true (freshState ∅) in
  let s1 := Core.saveTokenAndUser sampleDecode sampleConfig "not-a-jwt" false s in
  let s2 := Core.initialEffect sampleDecode sampleConfig (Core.pageLoad ∅ s1) in
  "not-a-jwt" ≠ "" ∧ sampleDecode "not-a-jwt" = None ∧
  token (authState (Core.page s1)) = Some validJWT ∧
  localStorage (Core.page s1) !! tokenStorageKey sampleConfig = Some "not-a-jwt" ∧
  isAuthenticated (authState (Core.page s2)) = false.
Proof.
  intros s s1 s2.
  assert (Hne : "not-a-jwt" ≠ "") by discriminate.
  assert (Hbad : sampleDecode "not-a-jwt" = None) by reflexivity.
  destruct (failed_materialize_replaces_stored_token sampleDecode sampleConfig
              "not-a-jwt" Hne Hbad) as [HC _].
  assert (Hreach : Core.reachable sampleDecode sampleConfig s).
  { exists (freshState ∅). split; [by repeat split|].
    apply rtc_once. apply Core.step_saveTokenAndUser. }
  destruct (HC s false ∅ Hreach) as (H1 & H2 & H3).
  fold s1 in H1, H2, H3. fold s2 in H3.
  split; [exact Hne|]. split; [exact Hbad|].
  split; [by rewrite H2|]. split; [exact H1|]. by rewrite H3.
Defined.

Lemma Simple_step_persisted jwtDecode cfg (w w' : World) :
  Simple.step jwtDecode cfg w w' →
  (isAuthenticated (authState w) = true →
   ∃ t, token (authState w) = Some t ∧ localStorage w !! tokenStorageKey cfg = Some t) →
  isAuthenticated (authState w') = true →
  ∃ t, token (authState w') = Some t ∧ localStorage w' !! tokenStorageKey cfg = Some t.
Proof.
  assert (Hdec : ∀ t b w0,
    (isAuthenticated (authState w0) = true →
     ∃ t, token (authState w0) = Some t ∧ localStorage w0 !! tokenStorageKey cfg = Some t) →
    isAuthenticated (authState (Simple.decodeAndSetToken jwtDecode cfg t b w0)) = true →
    ∃ t', token (authState (Simple.decodeAndSetToken jwtDecode cfg t b w0)) = Some t' ∧
          localStorage (Simple.decodeAndSetToken jwtDecode cfg t b w0)
            !! tokenStorageKey cfg = Some t').
  { intros t b w0 H0.
    destruct (decide (token (authState w0) = Some t ∧ isAuthenticated (authState w0) = true))
      as [[Ht Ha]|Hnew].
    { by rewrite Simple_decodeAndSetToken_seen. }
    destruct (jwtDecode t) as [claims|] eqn:Hd.
    - rewrite (Simple_decodeAndSetToken_ok _ _ _ _ _ _ Hnew Hd). simpl.
      intros _. exists t. split; [done | apply lookup_insert_eq].
    - by rewrite (Simple_decodeAndSetToken_bad _ _ _ _ _ Hnew Hd). }
  intros Hstep H0. destruct Hstep; try done.
  - unfold Simple.loadTokenOnMount. case_match; [|done]. by apply Hdec.
  - by apply Hdec.
  - unfold Simple.loginWithEmail. by case_match.
  - unfold Simple.logout. by repeat case_match.
  - unfold Simple.handleCallback. cbv zeta. repeat case_match; try done.
    by apply Hdec.
Qed.

Lemma Simple_reachable_persisted jwtDecode cfg (w : World) :
  Simple.reachable jwtDecode cfg w →
  isAuthenticated (authState w) = true →
  ∃ t, token (authState w) = Some t ∧ localStorage w !! tokenStorageKey cfg = Some t.
Proof.
  intros (w0 & H0 & Hrtc).
  eapply (rtc_ind_r (λ w, isAuthenticated (authState w) = true →
            ∃ t, token (authState w) = Some t ∧
                 localStorage w !! tokenStorageKey cfg = Some t)); [ | | exact Hrtc].
  - by rewrite H0.
  - intros w1 w2 _ Hstep IH. by eapply Simple_step_persisted.
Qed.

(** X17, [src/AuthContext.tsx]: in every state the provider can reach,
    an authenticated session holds a token and that very token is the one
    stored under the token key, and it is a token that decodes. *)
Theorem Simple_authenticated_token_persisted
    (jwtDecode : string → option jsobj) (cfg : Config) (w : World)
    (Hreach : Simple.reachable jwtDecode cfg w)
    (Hauth : isAuthenticated (authState w) = true) :
  ∃ t, token (authState w) = Some t ∧
       localStorage w !! tokenStorageKey cfg = Some t ∧
       is_Some (jwtDecode t).
Proof.
  destruct (Simple_reachable_persisted _ _ _ Hreach Hauth) as (t & Ht & Hls).
  exists t. split; [done|]. split; [done|].
  by eapply Simple_reachable_token_decodes.
Qed.

Lemma Simple_authenticated_token_persisted_witness :
  let w := Simple.handleCallback sampleDecode sampleConfig
             (mkWorld Simple.initialState ∅ (<[Simple.oauthStateKey := "X"]> ∅)
                (<["token" := validJWT]> (<["state" := "X"]> ∅)) []) in
  isAuthenticated (authState w) = true ∧
  ∃ t, token (authState w) = Some t ∧
       localStorage w !! tokenStorageKey sampleConfig = Some t ∧
       is_Some (sampleDecode t).
Proof.
  intros w.
  assert (Hreach : Simple.reachable sampleDecode sampleConfig w).
  { eexists. split; [|apply rtc_once; apply Simple.step_handleCallback]. reflexivity. }
  assert (Hauth : isAuthenticated (authState w) = true) by reflexivity.
  split; [exact Hauth|].
  exact (Simple_authenticated_token_persisted sampleDecode sampleConfig w Hreach Hauth).
Defined.

(** ** The refs of [useAuthCoreState] *)

Lemma Core_saveTokenAndUser_refs jwtDecode cfg t b (s : Core.State) :
  Core.isProcessingAuthCallbackRef s = false →
  (isAuthenticated (authState (Core.page s)) = true →
   ∃ t, token (authState (Core.page s)) = Some t ∧ Core.lastProcessedTokenRef s = Some t) →
  let s' := Core.saveTokenAndUser jwtDecode cfg t b s in
  Core.isProcessingAuthCallbackRef s' = false ∧
  (isAuthenticated (authState (Core.page s')) = true →
   ∃ t, token (authState (Core.page s')) = Some t ∧ Core.lastProcessedTokenRef s' = Some t).
Proof.
  intros Hp Ha s'. subst s'.
  destruct (decide (Core.lastProcessedTokenRef s = Some t)) as [Hr|Hr].
  { by rewrite Core_saveTokenAndUser_seen. }
  destruct (jwtDecode t) as [claims|] eqn:Hd.
  - rewrite (Core_saveTokenAndUser_ok _ _ _ _ _ _ Hr Hd). simpl.
    split; [by destruct b|]. intros _. by exists t.
  - rewrite (Core_saveTokenAndUser_bad _ _ _ _ _ Hr Hd). simpl.
    split; [by destruct b | done].
Qed.

Lemma Core_step_refs jwtDecode cfg (s s' : Core.State) :
  Core.step jwtDecode cfg s s' →
  Core.isProcessingAuthCallbackRef s = false ∧
  (isAuthenticated (authState (Core.page s)) = true →
   ∃ t, token (authState (Core.page s)) = Some t ∧ Core.lastProcessedTokenRef s = Some t) →
  Core.isProcessingAuthCallbackRef s' = false ∧
  (isAuthenticated (authState (Core.page s')) = true →
   ∃ t, token (authState (Core.page s')) = Some t ∧ Core.lastProcessedTokenRef s' = Some t).
Proof.
  intros Hstep [Hp Ha]. destruct Hstep; try done.
  - unfold Core.initialEffect. rewrite Hp. case_match; [|done].
    by apply Core_saveTokenAndUser_refs.
  - by apply Core_saveTokenAndUser_refs.
  - unfold Core.clearTokenAndUser. by case_match.
  - unfold Core.loginWithEmailRequest. by case_match.
  - unfold Core.handleAuthCallback. cbv zeta. repeat case_match; try done.
    unfold Core.onPage at 1. cbn [Core.page Core.lastProcessedTokenRef
      Core.isProcessingAuthCallbackRef setSearch authState].
    by apply Core_saveTokenAndUser_refs.
  - unfold Core.logout. simpl. unfold Core.clearTokenAndUser. by case_match.
Qed.

(** X18, the two hooks: between operations [isProcessingAuthCallbackRef] is
    never set (it is raised and lowered inside one synchronous call of
    [saveTokenAndUser]), so the initial effect never skips the restore
    because of it; and an authenticated session always holds the token that
    [lastProcessedTokenRef] remembers, a token that decodes. *)
Theorem Core_reachable_refs
    (jwtDecode : string → option jsobj) (cfg : Config) (s : Core.State)
    (Hreach : Core.reachable jwtDecode cfg s) :
  Core.isProcessingAuthCallbackRef s = false ∧
  (isAuthenticated (authState (Core.page s)) = true →
   ∃ t, token (authState (Core.page s)) = Some t ∧
        Core.lastProcessedTokenRef s = Some t ∧ is_Some (jwtDecode t)).
Proof.
  assert (Hinv : Core.isProcessingAuthCallbackRef s = false ∧
    (isAuthenticated (authState (Core.page s)) = true →
     ∃ t, token (authState (Core.page s)) = Some t ∧ Core.lastProcessedTokenRef s = Some t)).
  { destruct Hreach as (s0 & (Ha0 & Hr0 & Hp0) & Hrtc).
    eapply (rtc_ind_r (λ s, Core.isProcessingAuthCallbackRef s = false ∧
              (isAuthenticated (authState (Core.page s)) = true →
               ∃ t, token (authState (Core.page s)) = Some t ∧
                    Core.lastProcessedTokenRef s = Some t))); [ | | exact Hrtc].
    - split; [done|]. by rewrite Ha0.
    - intros s1 s2 _ Hstep IH. by eapply Core_step_refs. }
  destruct Hinv as [Hp Ha]. split; [done|].
  intros Hauth. destruct (Ha Hauth) as (t & Ht & Hr).
  exists t. split; [done|]. split; [done|].
  by eapply Core_reachable_ref_decodes.
Qed.

Lemma Core_reachable_refs_witness :
  let s := Core.handleAuthCallback sampleDecode sampleConfig
             (Core.mkState
                (mkWorld Core.initialState ∅ (<[stateStorageKey sampleConfig := "X"]> ∅)
                   (<["token" := validJWT]> (<["state" := "X"]> ∅)) [])
                None false) in
  isAuthenticated (authState (Core.page s)) = true ∧
  Core.isProcessingAuthCallbackRef s = false.
Proof.
  intros s.
  assert (Hreach : Core.reachable sampleDecode sampleConfig s).
  { eexists. split; [|apply rtc_once; apply Core.step_handleAuthCallback].
    by repeat split. }
  destruct (Core_reachable_refs sampleDecode sampleConfig s Hreach) as [H1 _].
  split; [reflexivity | exact H1].
Defined.

(** ** The monolithic provider has no guard against a repeated token *)

(** X19: in the monolithic provider every call of [saveTokenAndUser] with
    a token that decodes invokes the configured login callback, however
    often the same token comes: [n] calls, [n] invocations.  The session
    and the stored token are the same after each of them. *)
Theorem Mono_saveTokenAndUser_each_call
    (jwtDecode : string → option jsobj) (cfg : Config) (t : string) (claims : jsobj)
    (Hdec : jwtDecode t = Some claims) (Hcb : onLoginSuccess cfg = true) :
  ∀ (n : nat) (w : World),
    let w' := Nat.iter (S n) (Mono.saveTokenAndUser jwtDecode cfg t) w in
    loginCalls (effects w') = loginCalls (effects w) + S n ∧
    authState w' = mkAuthState true (Some (Mono.makeUser claims)) false None (Some t) ∧
    localStorage w' = <[tokenStorageKey cfg := t]> (localStorage w).
Proof.
  assert (Hone : ∀ w, Mono.saveTokenAndUser jwtDecode cfg t w =
            mkWorld (mkAuthState true (Some (Mono.makeUser claims)) false None (Some t))
              (<[tokenStorageKey cfg := t]> (localStorage w)) (sessionStorage w)
              (search w) (effects w ++ [LoginSuccess (Mono.makeUser claims) t])).
  { intros w. unfold Mono.saveTokenAndUser. cbv zeta. simpl. by rewrite Hdec, Hcb. }
  induction n as [|n IH]; intros w w'; subst w'.
  - simpl. rewrite Hone. simpl. rewrite loginCalls_snoc_login.
    repeat split. lia.
  - change (Nat.iter (S (S n)) (Mono.saveTokenAndUser jwtDecode cfg t) w)
      with (Mono.saveTokenAndUser jwtDecode cfg t
              (Nat.iter (S n) (Mono.saveTokenAndUser jwtDecode cfg t) w)).
    destruct (IH w) as (H1 & H2 & H3).
    set (wn := Nat.iter (S n) (Mono.saveTokenAndUser jwtDecode cfg t) w) in *.
    rewrite Hone. cbn [effects authState localStorage].
    rewrite loginCalls_snoc_login, H1, H3, insert_insert_eq.
    repeat split. lia.
Qed.

Lemma Mono_saveTokenAndUser_each_call_witness :
  let w' := Nat.iter 2 (Mono.saveTokenAndUser sampleDecode sampleConfig validJWT)
              (freshWorld Mono.initialState ∅) in
  is_Some (sampleDecode validJWT) ∧ onLoginSuccess sampleConfig = true ∧
  loginCalls (effects w') = 2.
Proof.
  intros w'.
  assert (Hdec : sampleDecode validJWT =
                 Some (<["sub" := VStr "u1"]> (<["email" := VStr "a@b.com"]> ∅)))
    by reflexivity.
  destruct (Mono_saveTokenAndUser_each_call sampleDecode sampleConfig validJWT _
              Hdec eq_refl 1 (freshWorld Mono.initialState ∅)) as (H1 & _ & _).
  split; [by rewrite Hdec|]. split; [reflexivity | exact H1].
Defined.

(** ** The session across a reload *)

(** X20, [src/AuthContext.tsx]: an authenticated session survives a page
    load.  From any reachable state with a (non-empty) token, loading the
    page again and running the mount effect gives an authenticated session
    with the same token; the storage is untouched and no callback runs. *)
Theorem Simple_session_survives_reload
    (jwtDecode : string → option jsobj) (cfg : Config) (w : World) (t : string) (q : Query)
    (Hreach : Simple.reachable jwtDecode cfg w)
    (Hauth : isAuthenticated (authState w) = true)
    (Htok : token (authState w) = Some t) (Hne : t ≠ "") :
  let w' := Simple.loadTokenOnMount jwtDecode cfg (Simple.pageLoad q w) in
  isAuthenticated (authState w') = true ∧
  token (authState w') = Some t ∧
  isLoading (authState w') = false ∧
  error (authState w') = None ∧
  localStorage w' = localStorage w ∧
  effects w' = effects w.
Proof.
  intros w'. subst w'.
  destruct (Simple_reachable_persisted _ _ _ Hreach Hauth) as (t' & Ht' & Hls).
  assert (t' = t) as -> by congruence.
  destruct (Simple_reachable_token_decodes _ _ _ _ Hreach Htok) as [claims Hdec].
  rewrite (Simple_loadTokenOnMount_stored _ _ t); [|done|done].
  rewrite (Simple_decodeAndSetToken_ok _ _ _ _ _ claims); [|by intros [? _]|done].
  simpl. repeat split. by apply insert_id.
Qed.

Lemma Simple_session_survives_reload_witness :
  let w := Simple.handleCallback sampleDecode sampleConfig
             (mkWorld Simple.initialState ∅ (<[Simple.oauthStateKey := "X"]> ∅)
                (<["token" := validJWT]> (<["state" := "X"]> ∅)) []) in
  let w' := Simple.loadTokenOnMount sampleDecode sampleConfig (Simple.pageLoad ∅ w) in
  isAuthenticated (authState w) = true ∧ validJWT ≠ "" ∧
  isAuthenticated (authState w') = true ∧
  token (authState w') = Some validJWT ∧
  loginCalls (effects w') = 1.
Proof.
  intros w w'.
  assert (Hreach : Simple.reachable sampleDecode sampleConfig w).
  { eexists. split; [|apply rtc_once; apply Simple.step_handleCallback]. reflexivity. }
  assert (Hauth : isAuthenticated (authState w) = true) by reflexivity.
  assert (Htok : token (authState w) = Some validJWT) by reflexivity.
  assert (Hne : validJWT ≠ "") by discriminate.
  destruct (Simple_session_survives_reload sampleDecode sampleConfig w validJWT ∅
              Hreach Hauth Htok Hne) as (H1 & H2 & _ & _ & _ & H6).
  fold w' in H1, H2, H6.
  split; [exact Hauth|]. split; [exact Hne|]. split; [exact H1|]. split; [exact H2|].
  rewrite H6. reflexivity.
Defined.

(** ** The two revisions of [handleAuthCallback] *)

(** X21: the callback handler of the [useAuthActions] hook leaves the page
    exactly as the handler of the monolithic provider does whenever the
    callback carries an error, or its state is not accepted, or its token
    decodes and is not the one processed last.  (The two differ in the
    wording of the other failure messages and in the guard against a
    repeated token.) *)
Theorem Core_handleAuthCallback_as_Mono
    (jwtDecode : string → option jsobj) (cfg : Config) (s : Core.State)
    (Hcase :
       truthyStr (search (Core.page s) !! "error") = true ∨
       Mono.stateAccepted (search (Core.page s) !! "state")
         (sessionStorage (Core.page s) !! stateStorageKey cfg) = false ∨
       ∃ tok claims, search (Core.page s) !! "token" = Some tok ∧ tok ≠ "" ∧
                     jwtDecode tok = Some claims ∧
                     Core.lastProcessedTokenRef s ≠ Some tok) :
  Core.page (Core.handleAuthCallback jwtDecode cfg s) =
  Mono.handleAuthCallback jwtDecode cfg (Core.page s).
Proof.
  destruct (truthyStr (search (Core.page s) !! "error")) eqn:He.
  { unfold Core.handleAuthCallback, Mono.handleAuthCallback. cbv zeta. simpl.
    by rewrite He. }
  destruct (Mono.stateAccepted (search (Core.page s) !! "state")
              (sessionStorage (Core.page s) !! stateStorageKey cfg)) eqn:Hacc.
  2:{ unfold Core.handleAuthCallback, Mono.handleAuthCallback. cbv zeta. simpl.
      by rewrite He, Hacc. }
  destruct Hcase as [Hcase|[Hcase|(tok & claims & Htok & Hne & Hdec & Hnew)]];
    [done|done|].
  rewrite (Core_handleAuthCallback_accepted _ _ _ tok) by done.
  rewrite (Core_saveTokenAndUser_ok _ _ _ _ _ claims) by done.
  unfold Mono.handleAuthCallback. cbv zeta. simpl.
  rewrite He, Hacc, Htok, (truthyStr_nonempty _ Hne). simpl.
  unfold Mono.saveTokenAndUser. cbv zeta. simpl. rewrite Hdec.
  rewrite Mono_makeUser_Core. by destruct (onLoginSuccess cfg).
Qed.

Lemma Core_handleAuthCallback_as_Mono_witness :
  let s := Core.mkState
             (mkWorld Core.initialState ∅ (<[stateStorageKey sampleConfig := "X"]> ∅)
                (<["token" := validJWT]> (<["state" := "Y"]> ∅)) [])
             None false in
  Mono.stateAccepted (search (Core.page s) !! "state")
    (sessionStorage (Core.page s) !! stateStorageKey sampleConfig) = false ∧
  Core.page (Core.handleAuthCallback sampleDecode sampleConfig s) =
  Mono.handleAuthCallback sampleDecode sampleConfig (Core.page s).
Proof.
  intros s.
  assert (Hacc : Mono.stateAccepted (search (Core.page s) !! "state")
                   (sessionStorage (Core.page s) !! stateStorageKey sampleConfig) = false)
    by reflexivity.
  split; [exact Hacc|].
  exact (Core_handleAuthCallback_as_Mono sampleDecode sampleConfig s
           (or_intror (or_introl Hacc))).
Defined.
